(** * rununiproc: launch one child process pinned to a single logical CPU

    Shallow embedding of [src/rununiproc.cpp].  The source file holds two
    variants of [wmain]: the first (lines 50-193) takes [argv[1]] verbatim as
    the executable ("direct mode"); the second (lines 250-425) resolves
    [argv[1]] with [SearchPath] ("search mode").

    Every Win32 call is an oracle: its answer is read from a record [OS] and
    the call is appended to a log of events.  Early [return]s and the
    destructors of the [std::unique_ptr] locals are modelled by a small
    state-and-return monad. *)

From Stdlib Require Import ZArith List Bool String Lia.
Import ListNotations.
Local Open Scope Z_scope.

(* ================================================================== *)
(** * Machine integers *)

Module MachInt.

(** Value of a [w]-bit unsigned integer holding [z]. *)
Definition wrap_unsigned (w z : Z) : Z := z mod 2 ^ w.

(** Value of a [w]-bit two's complement integer holding [z]. *)
Definition wrap_signed (w z : Z) : Z :=
  let u := z mod 2 ^ w in
  if u <? 2 ^ (w - 1) then u else u - 2 ^ w.

(** [int] and [DWORD] are 32 bits wide on every Windows target. *)
Definition to_int : Z -> Z := wrap_signed 32.
Definition to_DWORD : Z -> Z := wrap_unsigned 32.

(** [E1 << E2] at type [int].  A shift count outside [0, 32) has no
    defined value; inside, the result is [E1 * 2^E2] reduced to [int]. *)
Definition shl_int (e1 e2 : Z) : option Z :=
  if (0 <=? e2) && (e2 <? 32) then Some (to_int (e1 * 2 ^ e2)) else None.

(** Number of set bits among the low [n] bits of [z]. *)
Fixpoint popcount (n : nat) (z : Z) : nat :=
  match n with
  | O => O
  | S k => ((if Z.testbit z (Z.of_nat k) then 1 else 0) + popcount k z)%nat
  end.

End MachInt.
Import MachInt.

(** The two build targets the source distinguishes with [_M_X64]. *)
Inductive Target := M_X64 | M_IX86.

(** Width of [DWORD_PTR] (and of the affinity mask). *)
Definition DWORD_PTR_bits (t : Target) : Z :=
  match t with M_X64 => 64 | M_IX86 => 32 end.

Definition to_DWORD_PTR (t : Target) : Z -> Z := wrap_unsigned (DWORD_PTR_bits t).

(* ================================================================== *)
(** * CPU selection (lines 9-15, 72-81, 296-305) *)

(** [_BitScanForward] / [_BitScanForward64]: search the mask from bit 0
    upwards for a set bit; [None] stands for the return value 0 (no bit
    set, [index] left undefined). *)
Fixpoint bit_scan_from (fuel : nat) (i : Z) (mask : Z) : option Z :=
  match fuel with
  | O => None
  | S fuel' => if Z.testbit mask i then Some i
               else bit_scan_from fuel' (i + 1) mask
  end.

Definition BitScanForward (width : Z) (mask : Z) : option Z :=
  bit_scan_from (Z.to_nat width) 0 mask.

(** [CPU_BITSCANFORWARD]: the 64-bit intrinsic on x64, the 32-bit one
    otherwise; either way as wide as [DWORD_PTR]. *)
Definition CPU_BITSCANFORWARD (t : Target) (mask : Z) : option Z :=
  match t with
  | M_X64 => BitScanForward 64 mask
  | M_IX86 => BitScanForward 32 mask
  end.

(** [basicLimitInfo.Affinity = (1 << index);] -- the shift is done at type
    [int] (the literal [1]), the result is then converted to [ULONG_PTR]. *)
Definition job_affinity (t : Target) (index : Z) : option Z :=
  option_map (to_DWORD_PTR t) (shl_int 1 index).

(* ================================================================== *)
(** * Wide strings and the command line (lines 127-135, 351-364) *)

(** A [wchar_t] is a 16-bit code unit; a [std::wstring] a list of them. *)
Definition wchar := Z.
Definition wstring := list wchar.

(** Wide literal [L"..."] for ASCII text. *)
Definition L (s : string) : wstring :=
  map (fun a => Z.of_N (Ascii.N_of_ascii a)) (list_ascii_of_string s).

Definition dquote : wstring := [34].
Definition space : wstring := [32].

Module CmdLine.

(** Body of both [for] loops: write a double quote, [argv[i]] and a
    double quote to [oss], then a space unless [i == argc - 1]; run from
    [i] while [i < argc]; [fuel] bounds the iterations. *)
Fixpoint quote_loop (fuel : nat) (i argc : nat) (argv : list wstring)
         (oss : wstring) : wstring :=
  match fuel with
  | O => oss
  | S fuel' =>
      if (i <? argc)%nat then
        let oss := oss ++ dquote ++ nth i argv [] ++ dquote in
        let oss := if negb (i =? argc - 1)%nat then oss ++ space else oss in
        quote_loop fuel' (S i) argc argv oss
      else oss
  end.

(** Direct mode, lines 127-135: the loop starts at [i = 1]. *)
Definition build_direct (argv : list wstring) : wstring :=
  let argc := List.length argv in
  quote_loop argc 1 argc argv [].

(** Search mode, lines 351-364: the resolved path first, a space when
    [argc > 2], then the loop from [i = 2]. *)
Definition build_search (exePath : wstring) (argv : list wstring) : wstring :=
  let argc := List.length argv in
  let oss := dquote ++ exePath ++ dquote in
  let oss := if (2 <? argc)%nat then oss ++ space else oss in
  quote_loop argc 2 argc argv oss.

(** The quoting rule in the words of the specification: each argument
    wrapped in double quotes, the results joined by single spaces. *)
Definition quote (a : wstring) : wstring := dquote ++ a ++ dquote.

Fixpoint join (sep : wstring) (l : list wstring) : wstring :=
  match l with
  | [] => []
  | [x] => x
  | x :: xs => x ++ sep ++ join sep xs
  end.

Definition spec_cmdline (args : list wstring) : wstring :=
  join space (map quote args).

End CmdLine.

(* ================================================================== *)
(** * The operating system as an oracle *)

Inductive StdStream := STD_INPUT_HANDLE | STD_OUTPUT_HANDLE | STD_ERROR_HANDLE.

Inductive Handle :=
| hJob                                (* result of [CreateJobObject] *)
| hProcess                            (* [pi.hProcess] *)
| hThread                             (* [pi.hThread] *)
| hStd (s : StdStream).               (* [GetStdHandle(s)] *)

(** Outcome of a [BOOL] call whose [GetLastError()] the tool prints. *)
Inductive BoolCall := Succeeded | Failed (lastError : Z).

(** Outcome of a call that returns a [DWORD] status. *)
Record DwordCall := { retval : Z; dw_lastError : Z }.

(** [SearchPath]: the returned length, what it left in the buffer (read
    back as a C string), and the error code. *)
Record SearchPathCall :=
  { sp_pathLen : Z; sp_buffer : wstring; sp_lastError : Z }.

(** The sizing call of [InitializeProcThreadAttributeList]. *)
Record SizingCall := { sz_ok : bool; sz_lastError : Z; sz_size : Z }.

Inductive ExitCodeCall := GotExitCode (code : Z) | NoExitCode (lastError : Z).

(** One answer per call site.  An allocation answers with the pointer
    test the source makes on it ([if (!attrList)], [if (!exePathBuf)]).
    [GetExitCodeProcess] either delivers a code or leaves [exitCode]
    untouched. *)
Record OS := {
  os_make_unique_exePathBuf : bool;                  (* non-null *)
  os_SearchPath : wstring -> Z -> SearchPathCall;    (* name, buffer length *)
  os_CreateJobObject : bool;                         (* non-null handle *)
  os_GetProcessAffinityMask : option Z;              (* the process mask *)
  os_SetInformationJobObject : option Z -> bool;     (* given the affinity *)
  os_InitializeProcThreadAttributeList_sizing : SizingCall;
  os_new_char_array : Z -> bool;                     (* non-null, given size *)
  os_InitializeProcThreadAttributeList : bool;
  os_UpdateProcThreadAttribute : bool;
  os_CreateProcess : wstring -> wstring -> BoolCall; (* application, command *)
  os_AssignProcessToJobObject : BoolCall;
  os_ResumeThread : DwordCall;
  os_WaitForSingleObject : DwordCall;
  os_GetExitCodeProcess : ExitCodeCall
}.

(** Constants of [windows.h] the source uses. *)
Definition ERROR_INSUFFICIENT_BUFFER : Z := 122.
Definition WAIT_OBJECT_0 : Z := 0.
Definition CREATE_SUSPENDED : Z := 0x4.
Definition CREATE_UNICODE_ENVIRONMENT : Z := 0x400.
Definition EXTENDED_STARTUPINFO_PRESENT : Z := 0x80000.
Definition JOB_OBJECT_LIMIT_AFFINITY : Z := 0x10.

(** Lines written to the standard error stream. *)
Inductive Diag :=
| AtLeastOneArgumentRequired
| ExePathBufAllocFailed
| SearchPathFailed (err : Z)
| SearchPathTooLong
| CreateJobObjectFailed
| AffinityMaskUnavailable
| AffinityMaskZero
| SetLimitFailed
| AttrListSizingFailed
| AttrListAllocFailed (size : Z)
| AttrListInitFailed
| AttrUpdateFailed
| CommandLineTooLong
| CreateProcessFailed (err : Z)
| AssignFailed (err : Z)
| ResumeFailed (err : Z)
| WaitFailed (err : Z)
| GetExitCodeFailed (err : Z).

Local Open Scope string_scope.

Definition diag_text (d : Diag) : string * option Z :=
  match d with
  | AtLeastOneArgumentRequired => ("At least one argument required.", None)
  | ExePathBufAllocFailed => ("Failed to allocate exePathBuf.", None)
  | SearchPathFailed e => ("SearchPath failed with error code ", Some e)
  | SearchPathTooLong => ("SearchPath failed: path too long.", None)
  | CreateJobObjectFailed => ("CreateJobObject failed.", None)
  | AffinityMaskUnavailable => ("Unable to obtain our CPU affinity mask.", None)
  | AffinityMaskZero => ("CPU affinity mask is zero?!", None)
  | SetLimitFailed =>
      ("Unable to set basic limit information on job object.", None)
  | AttrListSizingFailed =>
      ("InitializeProcThreadAttributeList for sizing failed", None)
  | AttrListAllocFailed n =>
      ("Could not allocate proc thread attribute list of size ", Some n)
  | AttrListInitFailed => ("InitializeProcThreadAttributeList failed", None)
  | AttrUpdateFailed => ("UpdateProcThreadAttribute failed", None)
  | CommandLineTooLong => ("Command line is too long for CreateProcess", None)
  | CreateProcessFailed e => ("CreateProcess failed with error code ", Some e)
  | AssignFailed e =>
      ("AssignProcessToJobObject failed with error code ", Some e)
  | ResumeFailed e => ("ResumeThread failed with error code ", Some e)
  | WaitFailed e => ("WaitForSingleObject failed with error code ", Some e)
  | GetExitCodeFailed e => ("GetExitCodeProcess failed with error code ", Some e)
  end.

Local Close Scope string_scope.

(** What the tool does to the outside world, in program order. *)
Inductive Event :=
| Stderr (d : Diag)
| MakeUniqueExePathBuf (len : Z) (ok : bool)
| SearchPath (name : wstring) (bufLen : Z) (pathLen : Z)
| CreateJobObject (job : option Handle)
| GetProcessAffinityMask (mask : option Z)
| SetInformationJobObject (job : Handle) (limitFlags : Z)
                          (affinity : option Z) (ok : bool)
| InitializeProcThreadAttributeList (sizing : bool) (count : Z) (ok : bool)
| NewCharArray (size : Z) (ok : bool)
| UpdateProcThreadAttribute (handles : list Handle) (ok : bool)
| CreateProcess (application cmdLine : wstring) (inherit : bool)
                (flags : Z) (r : BoolCall)
| AssignProcessToJobObject (job process : Handle) (r : BoolCall)
| ResumeThread (thread : Handle) (ret : Z)
| TerminateProcess (process : Handle) (exitCode : Z)
| WaitForSingleObject (process : Handle) (ret : Z)
| GetExitCodeProcess (process : Handle) (r : ExitCodeCall)
| CloseHandle (h : Handle)
| DeleteProcThreadAttributeList
| DeleteArray.

(* ================================================================== *)
(** * Control flow: early return and scoped ownership *)

(** The [std::unique_ptr] locals of [wmain] (lines 24-48, 259). *)
Inductive Local :=
| UniqueHandle (h : option Handle)
| ProcThreadAttributeListPtr (nonnull : bool)
| UniqueWcharArray (nonnull : bool).

(** Destructor of a local: the deleter runs only on a non-null pointer. *)
Definition destroy (l : Local) : list Event :=
  match l with
  | UniqueHandle (Some h) => [CloseHandle h]
  | UniqueHandle None => []
  | ProcThreadAttributeListPtr true => [DeleteProcThreadAttributeList; DeleteArray]
  | ProcThreadAttributeListPtr false => []
  | UniqueWcharArray true => [DeleteArray]
  | UniqueWcharArray false => []
  end.

Module Run.

(** State of one activation of [wmain]: the events so far and the live
    locals, most recently constructed first. *)
Record Frame := { log : list Event; locals : list Local }.

Inductive Flow (A : Type) := Next (a : A) | Returned (code : Z).
Arguments Next {A} a.
Arguments Returned {A} code.

Definition M (A : Type) : Type := Frame -> Flow A * Frame.

Definition ret {A} (a : A) : M A := fun f => (Next a, f).

Definition bind {A B} (m : M A) (k : A -> M B) : M B :=
  fun f => match m f with
           | (Next a, f') => k a f'
           | (Returned c, f') => (Returned c, f')
           end.

(** [return code;] *)
Definition Return {A} (code : Z) : M A := fun f => (Returned code, f).

Definition emit (e : Event) : M unit :=
  fun f => (Next tt, {| log := log f ++ [e]; locals := locals f |}).

(** Construction of a local with a destructor. *)
Definition declare (l : Local) : M unit :=
  fun f => (Next tt, {| log := log f; locals := l :: locals f |}).

(** Run a function body: whichever [return] ends it, the destructors of
    the locals run in reverse order of construction. *)
Definition exec (body : M Z) : list Event * Z :=
  match body {| log := []; locals := [] |} with
  | (Next c, f) | (Returned c, f) => (log f ++ flat_map destroy (locals f), c)
  end.

End Run.
Import Run.

Declare Scope run_scope.
Delimit Scope run_scope with run.
Notation "x <- m ;; k" := (bind m (fun x => k))
  (at level 61, m at next level, right associativity) : run_scope.
Notation "m ;; k" := (bind m (fun _ => k))
  (at level 61, right associativity) : run_scope.
Local Open Scope run_scope.

(** [std::wcerr << ... << std::endl; return code;] *)
Definition bail {A} (d : Diag) (code : Z) : M A :=
  emit (Stderr d) ;; Return code.

(* ================================================================== *)
(** * The body of [wmain] *)

(** Lines 58-88 (= 282-312): create the job object, read the affinity
    mask, pick the first CPU, restrict the job to it. *)
Definition restrict_job (t : Target) (os : OS) : M Handle :=
  let job := if os_CreateJobObject os then Some hJob else None in
  emit (CreateJobObject job) ;;
  declare (UniqueHandle job) ;;
  match job with
  | None => bail CreateJobObjectFailed 1
  | Some j =>
      emit (GetProcessAffinityMask (os_GetProcessAffinityMask os)) ;;
      match os_GetProcessAffinityMask os with
      | None => bail AffinityMaskUnavailable 1
      | Some processAffinityMask =>
          match CPU_BITSCANFORWARD t processAffinityMask with
          | None => bail AffinityMaskZero 1
          | Some index =>
              let affinity := job_affinity t index in
              let ok := os_SetInformationJobObject os affinity in
              emit (SetInformationJobObject j JOB_OBJECT_LIMIT_AFFINITY
                                            affinity ok) ;;
              if ok then ret j else bail SetLimitFailed 1
          end
      end
  end.

(** [inheritableHandleWhitelist], lines 112-116. *)
Definition inheritableHandleWhitelist : list Handle :=
  [hStd STD_INPUT_HANDLE; hStd STD_OUTPUT_HANDLE; hStd STD_ERROR_HANDLE].

(** Lines 90-125 (= 314-349): size, allocate and fill the one-entry
    attribute list that carries the handle whitelist. *)
Definition build_attribute_list (os : OS) : M unit :=
  let sizing := os_InitializeProcThreadAttributeList_sizing os in
  emit (InitializeProcThreadAttributeList true 1 (sz_ok sizing)) ;;
  if negb (sz_ok sizing)
     && negb (sz_lastError sizing =? ERROR_INSUFFICIENT_BUFFER)
  then bail AttrListSizingFailed 1
  else
    let attrListSize := sz_size sizing in
    let nonnull := os_new_char_array os attrListSize in
    emit (NewCharArray attrListSize nonnull) ;;
    declare (ProcThreadAttributeListPtr nonnull) ;;
    if negb nonnull then bail (AttrListAllocFailed attrListSize) 1
    else
      let initialised := os_InitializeProcThreadAttributeList os in
      emit (InitializeProcThreadAttributeList false 1 initialised) ;;
      if negb initialised then bail AttrListInitFailed 1
      else
        let updated := os_UpdateProcThreadAttribute os in
        emit (UpdateProcThreadAttribute inheritableHandleWhitelist updated) ;;
        if negb updated then bail AttrUpdateFailed 1 else ret tt.

Definition creation_flags : Z :=
  Z.lor (Z.lor CREATE_SUSPENDED CREATE_UNICODE_ENVIRONMENT)
        EXTENDED_STARTUPINFO_PRESENT.

(** Lines 137-192 (= 370-424): create the child suspended, put it in the
    job, resume it, wait for it and forward its exit code. *)
Definition supervise (os : OS) (job : Handle) (application cmdLine : wstring)
  : M Z :=
  let created := os_CreateProcess os application cmdLine in
  emit (CreateProcess application cmdLine true creation_flags created) ;;
  match created with
  | Failed err => bail (CreateProcessFailed err) 1
  | Succeeded =>
      declare (UniqueHandle (Some hProcess)) ;;
      declare (UniqueHandle (Some hThread)) ;;
      let assigned := os_AssignProcessToJobObject os in
      emit (AssignProcessToJobObject job hProcess assigned) ;;
      match assigned with
      | Failed err =>
          emit (Stderr (AssignFailed err)) ;;
          emit (TerminateProcess hProcess 1) ;;
          Return 1
      | Succeeded =>
          let resumed := os_ResumeThread os in
          emit (ResumeThread hThread (retval resumed)) ;;
          if retval resumed =? to_DWORD (-1) then
            emit (Stderr (ResumeFailed (dw_lastError resumed))) ;;
            emit (TerminateProcess hProcess 1) ;;
            Return 1
          else
            let waited := os_WaitForSingleObject os in
            emit (WaitForSingleObject hProcess (retval waited)) ;;
            if negb (retval waited =? WAIT_OBJECT_0) then
              bail (WaitFailed (dw_lastError waited)) 0
            else
              let fetched := os_GetExitCodeProcess os in
              emit (GetExitCodeProcess hProcess fetched) ;;
              match fetched with
              | GotExitCode code => Return (to_int (to_DWORD code))
              | NoExitCode err =>
                  emit (Stderr (GetExitCodeFailed err)) ;;
                  Return (to_int 0)
              end
      end
  end.

(** First variant of [wmain], lines 50-193. *)
Definition wmain_direct (t : Target) (os : OS) (argv : list wstring)
  : list Event * Z :=
  exec (
    let argc := List.length argv in
    if (argc <? 2)%nat then bail AtLeastOneArgumentRequired 1
    else
      job <- restrict_job t os ;;
      build_attribute_list os ;;
      let cmdLine := CmdLine.build_direct argv in
      supervise os job (nth 1 argv []) cmdLine).

Definition exePathBufLen : Z := 32767.

(** Second variant of [wmain], lines 250-425. *)
Definition wmain_search (t : Target) (os : OS) (argv : list wstring)
  : list Event * Z :=
  exec (
    let argc := List.length argv in
    if (argc <? 2)%nat then bail AtLeastOneArgumentRequired 1
    else
      let nonnull := os_make_unique_exePathBuf os in
      emit (MakeUniqueExePathBuf exePathBufLen nonnull) ;;
      declare (UniqueWcharArray nonnull) ;;
      if negb nonnull then bail ExePathBufAllocFailed 1
      else
        let found := os_SearchPath os (nth 1 argv []) exePathBufLen in
        let pathLen := sp_pathLen found in
        emit (SearchPath (nth 1 argv []) exePathBufLen pathLen) ;;
        if pathLen =? 0 then bail (SearchPathFailed (sp_lastError found)) 1
        else if exePathBufLen <=? pathLen then bail SearchPathTooLong 1
        else
          job <- restrict_job t os ;;
          build_attribute_list os ;;
          let cmdLine := CmdLine.build_search (sp_buffer found) argv in
          if exePathBufLen <? Z.of_nat (List.length cmdLine)
          then bail CommandLineTooLong 1
          else supervise os job (sp_buffer found) cmdLine).

(** The two variants as the two resolution modes of one tool. *)
Inductive Mode := Direct | Search.

Definition wmain (m : Mode) : Target -> OS -> list wstring -> list Event * Z :=
  match m with Direct => wmain_direct | Search => wmain_search end.

(** The exit code of the tool's process: the [int] returned by [wmain],
    handed to the operating system as an unsigned 32-bit value. *)
Definition process_exit_code (returned : Z) : Z := to_DWORD returned.

(* ================================================================== *)
(** * Reading a log *)

(** The child is in the job once this call has succeeded. *)
Definition binds_child (e : Event) : bool :=
  match e with
  | AssignProcessToJobObject hJob hProcess Succeeded => true
  | _ => false
  end.

(** Monitor: every [ResumeThread] in the log comes after a successful
    [AssignProcessToJobObject]; [bound] tells whether one was seen. *)
Fixpoint resumes_after_binding (bound : bool) (events : list Event) : bool :=
  match events with
  | [] => true
  | ResumeThread _ _ :: rest => bound && resumes_after_binding bound rest
  | e :: rest => resumes_after_binding (bound || binds_child e) rest
  end.

(** What the log says about the child: absent, created but not yet
    started, running, or ended; [inJob] tells whether the job's limits
    apply to it. *)
Inductive Child :=
| NoChild
| Suspended (inJob : bool)
| Running (inJob : bool)
| Ended.

Definition child_step (c : Child) (e : Event) : Child :=
  match e, c with
  | CreateProcess _ _ _ flags Succeeded, NoChild =>
      if Z.testbit flags 2 (* CREATE_SUSPENDED *) then Suspended false
      else Running false
  | AssignProcessToJobObject _ _ Succeeded, Suspended _ => Suspended true
  | AssignProcessToJobObject _ _ Succeeded, Running _ => Running true
  | ResumeThread _ ret, Suspended inJob =>
      if ret =? to_DWORD (-1) then c else Running inJob
  | TerminateProcess _ _, (Suspended _ | Running _) => Ended
  | _, _ => c
  end.

(** The states the child goes through, the initial one included. *)
Fixpoint child_states (c : Child) (events : list Event) : list Child :=
  match events with
  | [] => [c]
  | e :: rest => c :: child_states (child_step c e) rest
  end.

Definition never_runs_unconstrained (events : list Event) : Prop :=
  ~ In (Running false) (child_states NoChild events).

(** No [CreateProcess] call appears in the log. *)
Definition no_process_creation (events : list Event) : Prop :=
  forall application cmdLine inherit flags r,
    ~ In (CreateProcess application cmdLine inherit flags r) events.

(** The command line each mode assembles. *)
Definition resolved_path (os : OS) (argv : list wstring) : wstring :=
  sp_buffer (os_SearchPath os (nth 1 argv []) exePathBufLen).

Definition assembled_cmdline (m : Mode) (os : OS) (argv : list wstring)
  : wstring :=
  match m with
  | Direct => CmdLine.build_direct argv
  | Search => CmdLine.build_search (resolved_path os argv) argv
  end.

(* ================================================================== *)
(** * Concrete operating systems, for runs on concrete inputs *)

(** [SearchPath] finding [path], which fits the buffer. *)
Definition found_at (path : wstring) : SearchPathCall :=
  {| sp_pathLen := Z.of_nat (List.length path); sp_buffer := path;
     sp_lastError := 0 |}.

(** Every launch step up to process creation succeeds; the process may
    use the CPUs of [mask], the search answers [found], and the
    supervision calls answer as given. *)
Definition scripted_os (mask : Z) (found : SearchPathCall)
           (create : wstring -> wstring -> BoolCall) (assign : BoolCall)
           (resume wait : Z) (fetch : ExitCodeCall) : OS :=
  {| os_make_unique_exePathBuf := true;
     os_SearchPath := fun _ _ => found;
     os_CreateJobObject := true;
     os_GetProcessAffinityMask := Some mask;
     os_SetInformationJobObject := fun _ => true;
     os_InitializeProcThreadAttributeList_sizing :=
       {| sz_ok := false; sz_lastError := ERROR_INSUFFICIENT_BUFFER;
          sz_size := 48 |};
     os_new_char_array := fun _ => true;
     os_InitializeProcThreadAttributeList := true;
     os_UpdateProcThreadAttribute := true;
     os_CreateProcess := create;
     os_AssignProcessToJobObject := assign;
     os_ResumeThread := {| retval := resume; dw_lastError := 5 |};
     os_WaitForSingleObject := {| retval := wait; dw_lastError := 6 |};
     os_GetExitCodeProcess := fetch |}.

(** Every call succeeds and the child exits with [code]. *)
Definition friendly_os (mask : Z) (path : wstring) (code : Z) : OS :=
  scripted_os mask (found_at path) (fun _ _ => Succeeded) Succeeded 1
              WAIT_OBJECT_0 (GotExitCode code).

(** As [friendly_os], but process creation refuses (with error 206) a
    command line longer than 32767 characters. *)
Definition strict_os (mask : Z) (path : wstring) (code : Z) : OS :=
  scripted_os mask (found_at path)
              (fun _ cmdLine =>
                 if 32767 <? Z.of_nat (List.length cmdLine) then Failed 206
                 else Succeeded)
              Succeeded 1 WAIT_OBJECT_0 (GotExitCode code).

(** [SearchPath] reports that the path needs 40000 characters. *)
Definition os_path_too_long : OS :=
  scripted_os 1 {| sp_pathLen := 40000; sp_buffer := []; sp_lastError := 0 |}
              (fun _ _ => Succeeded) Succeeded 1 WAIT_OBJECT_0 (GotExitCode 0).

(** The child cannot be put in the job (error 5). *)
Definition os_assign_fails : OS :=
  scripted_os 1 (found_at []) (fun _ _ => Succeeded) (Failed 5) 1
              WAIT_OBJECT_0 (GotExitCode 0).

(** The initial thread cannot be resumed: [ResumeThread] returns
    [(DWORD)-1]. *)
Definition os_resume_fails : OS :=
  scripted_os 1 (found_at (L "C:\x.exe")) (fun _ _ => Succeeded) Succeeded
              (to_DWORD (-1)) WAIT_OBJECT_0 (GotExitCode 0).

(** The wait returns [WAIT_FAILED]. *)
Definition os_wait_fails : OS :=
  scripted_os 1 (found_at (L "C:\x.exe")) (fun _ _ => Succeeded) Succeeded
              1 0xFFFFFFFF (GotExitCode 7).

(** The child's exit code cannot be read. *)
Definition os_no_exit_code : OS :=
  scripted_os 1 (found_at (L "C:\x.exe")) (fun _ _ => Succeeded) Succeeded
              1 WAIT_OBJECT_0 (NoExitCode 6).

(** [SearchPath] finds nothing (error 2). *)
Definition os_not_found : OS :=
  scripted_os 1 {| sp_pathLen := 0; sp_buffer := []; sp_lastError := 2 |}
              (fun _ _ => Succeeded) Succeeded 1 WAIT_OBJECT_0 (GotExitCode 0).

Definition two_args : list wstring := [L "rununiproc.exe"; L "x.exe"].

(** [rununiproc.exe x.exe aaa...a], the last argument 32768 characters
    long. *)
Definition long_args : list wstring :=
  [L "rununiproc.exe"; L "x.exe"; repeat 97 (Z.to_nat 32768)].

(* ================================================================== *)
(** * The claims of the specification that the code does not meet,
      as stated *)

(** "If the process's affinity mask is zero, CPU selection fails with the
    NoAvailableCPU error (tool exits 1) and no containment object is
    created." *)
Definition zero_mask_claim (m : Mode) (t : Target) (os : OS)
           (argv : list wstring) : Prop :=
  In (GetProcessAffinityMask (Some 0)) (fst (wmain m t os argv)) ->
  snd (wmain m t os argv) = 1
  /\ In (Stderr AffinityMaskZero) (fst (wmain m t os argv))
  /\ forall job, ~ In (CreateJobObject job) (fst (wmain m t os argv)).

(** "In both resolution modes, if the assembled command-line string would
    exceed the OS command-line length limit, command assembly fails with
    CommandLineTooLongError (tool exits 1) and no process is created." *)
Definition too_long_claim (m : Mode) (t : Target) (os : OS)
           (argv : list wstring) : Prop :=
  In (UpdateProcThreadAttribute inheritableHandleWhitelist true)
     (fst (wmain m t os argv)) ->
  exePathBufLen < Z.of_nat (List.length (assembled_cmdline m os argv)) ->
  snd (wmain m t os argv) = 1
  /\ In (Stderr CommandLineTooLong) (fst (wmain m t os argv))
  /\ no_process_creation (fst (wmain m t os argv)).

(** "For every selected CPU index, the affinity limit applied to the
    containment object is a bitmask with exactly one bit set, namely the
    bit at the Selected CPU Index." *)
Definition single_bit_claim (t : Target) (index : Z) : Prop :=
  0 <= index < DWORD_PTR_bits t ->
  exists affinity,
    job_affinity t index = Some affinity
    /\ forall j, 0 <= j -> Z.testbit affinity j = (j =? index).

(* ================================================================== *)
(** * Reading a log: resources, order and diagnostics *)





(** A successful allocation of the attribute-list buffer. *)
Definition allocates_attribute_list (e : Event) : bool :=
  match e with NewCharArray _ ok => ok | _ => false end.

Definition deletes_attribute_list (e : Event) : bool :=
  match e with DeleteProcThreadAttributeList => true | _ => false end.

(** What the deleters of lines 24-41 and of the path buffer do. *)
Definition is_release (e : Event) : bool :=
  match e with
  | CloseHandle _ | DeleteProcThreadAttributeList | DeleteArray => true
  | _ => false
  end.

Definition is_diagnostic (e : Event) : bool :=
  match e with Stderr _ => true | _ => false end.

Definition is_terminate (e : Event) : bool :=
  match e with TerminateProcess _ _ => true | _ => false end.


Definition reads_exit_code (e : Event) : bool :=
  match e with GetExitCodeProcess _ _ => true | _ => false end.

Definition is_wait (e : Event) : bool :=
  match e with WaitForSingleObject _ _ => true | _ => false end.

Definition wait_signalled (e : Event) : bool :=
  match e with
  | WaitForSingleObject hProcess ret => ret =? WAIT_OBJECT_0
  | _ => false
  end.

Definition resume_succeeded (e : Event) : bool :=
  match e with
  | ResumeThread hThread ret => negb (ret =? to_DWORD (-1))
  | _ => false
  end.

Definition is_assign (e : Event) : bool :=
  match e with AssignProcessToJobObject _ _ _ => true | _ => false end.

Definition created_suspended (e : Event) : bool :=
  match e with
  | CreateProcess _ _ _ flags Succeeded => Z.testbit flags 2
  | _ => false
  end.

Definition count (p : Event -> bool) (events : list Event) : nat :=
  List.length (filter p events).

(** Monitor: whatever follows the first [p]-event satisfies [q]. *)
Fixpoint after_first (p q : Event -> bool) (events : list Event) : bool :=
  match events with
  | [] => true
  | e :: rest => if p e then forallb q rest else after_first p q rest
  end.

(** Monitor: every [q]-event has a [p]-event somewhere before it; [seen]
    tells whether a [p]-event has gone by. *)
Fixpoint each_preceded (p q : Event -> bool) (seen : bool)
         (events : list Event) : bool :=
  match events with
  | [] => true
  | e :: rest =>
      (negb (q e) || seen) && each_preceded p q (seen || p e) rest
  end.

(** The releases of a complete run of each variant, in order. *)
Definition full_release (m : Mode) : list Event :=
  [CloseHandle hThread; CloseHandle hProcess;
   DeleteProcThreadAttributeList; DeleteArray; CloseHandle hJob]
  ++ match m with Direct => [] | Search => [DeleteArray] end.

(** An argument without a double quote in it. *)
Definition quote_free (a : wstring) : Prop := ~ In 34 a.

(** Total number of characters of the arguments. *)
Definition total_length (args : list wstring) : nat :=
  list_sum (map (@List.length wchar) args).

(** An operating system on which the sizing call reports [err]. *)
Definition os_sizing_error (err : Z) : OS :=
  {| os_make_unique_exePathBuf := true;
     os_SearchPath := fun _ _ => found_at (L "C:\x.exe");
     os_CreateJobObject := true;
     os_GetProcessAffinityMask := Some 1;
     os_SetInformationJobObject := fun _ => true;
     os_InitializeProcThreadAttributeList_sizing :=
       {| sz_ok := false; sz_lastError := err; sz_size := 0 |};
     os_new_char_array := fun _ => true;
     os_InitializeProcThreadAttributeList := true;
     os_UpdateProcThreadAttribute := true;
     os_CreateProcess := fun _ _ => Succeeded;
     os_AssignProcessToJobObject := Succeeded;
     os_ResumeThread := {| retval := 1; dw_lastError := 0 |};
     os_WaitForSingleObject := {| retval := WAIT_OBJECT_0; dw_lastError := 0 |};
     os_GetExitCodeProcess := GotExitCode 0 |}.

(** An operating system on which the attribute list is allocated but
    cannot be initialised. *)
Definition os_init_fails : OS :=
  {| os_make_unique_exePathBuf := true;
     os_SearchPath := fun _ _ => found_at (L "C:\x.exe");
     os_CreateJobObject := true;
     os_GetProcessAffinityMask := Some 1;
     os_SetInformationJobObject := fun _ => true;
     os_InitializeProcThreadAttributeList_sizing :=
       {| sz_ok := false; sz_lastError := ERROR_INSUFFICIENT_BUFFER;
          sz_size := 48 |};
     os_new_char_array := fun _ => true;
     os_InitializeProcThreadAttributeList := false;
     os_UpdateProcThreadAttribute := true;
     os_CreateProcess := fun _ _ => Succeeded;
     os_AssignProcessToJobObject := Succeeded;
     os_ResumeThread := {| retval := 1; dw_lastError := 0 |};
     os_WaitForSingleObject := {| retval := WAIT_OBJECT_0; dw_lastError := 0 |};
     os_GetExitCodeProcess := GotExitCode 0 |}.

(* ================================================================== *)
(** * Proof automation for runs of [wmain] *)

Ltac unfold_wmain :=
  cbv [wmain wmain_direct wmain_search exec restrict_job build_attribute_list
       supervise bail bind ret Return emit declare log locals negb andb
       assembled_cmdline resolved_path].

(** Split on the innermost oracle answer or test the control flow
    depends on. *)
Ltac case_innermost :=
  match goal with
  | |- context [match ?x with _ => _ end] =>
      lazymatch x with
      | context [match _ with _ => _ end] => fail
      | _ => destruct x eqn:?
      end
  end.

(** One goal per path through [wmain], each with its log spelled out. *)
Ltac run_wmain :=
  unfold_wmain; repeat (case_innermost; unfold_wmain);
  cbn [app flat_map destroy fst snd].

(** Decompose a membership fact about a spelled-out log. *)
Ltac log_inv H :=
  cbn [In] in H;
  repeat match type of H with
         | _ \/ _ => destruct H as [H|H]
         end;
  try contradiction; try discriminate H;
  try (injection H as; subst).

(* ================================================================== *)
(** * CPU selection: properties *)

Section BitScan.

Variable mask : Z.

(** The scan returns the first set position at or after [i], provided
    one lies within reach of the fuel. *)
Lemma bit_scan_from_finds (fuel : nat) :
  forall i k,
    i <= k < i + Z.of_nat fuel ->
    Z.testbit mask k = true ->
    exists r, bit_scan_from fuel i mask = Some r
              /\ i <= r <= k
              /\ Z.testbit mask r = true
              /\ (forall j, i <= j < r -> Z.testbit mask j = false).
Proof.
  induction fuel as [|fuel IH]; intros i k Hk Hbit.
  - simpl in Hk. lia.
  - cbn [bit_scan_from]. destruct (Z.testbit mask i) eqn:Hi.
    + exists i. split; [reflexivity|]. split; [lia|]. split; [assumption|].
      intros j Hj; lia.
    + assert (k <> i) by (intros ->; congruence).
      destruct (IH (i + 1) k) as (r & Hr & Hrange & Hset & Hlow);
        [lia | assumption |].
      exists r. split; [assumption|]. split; [lia|]. split; [assumption|].
      intros j Hj. destruct (Z.eq_dec j i) as [->|]; [assumption|].
      apply Hlow; lia.
Qed.

(** Without a set bit within reach the scan reports failure. *)
Lemma bit_scan_from_none (fuel : nat) :
  forall i,
    (forall j, i <= j < i + Z.of_nat fuel -> Z.testbit mask j = false) ->
    bit_scan_from fuel i mask = None.
Proof.
  induction fuel as [|fuel IH]; intros i Hall; [reflexivity|].
  cbn [bit_scan_from]. rewrite Hall by lia. apply IH.
  intros j Hj. apply Hall. lia.
Qed.

End BitScan.

Lemma BitScanForward_nonzero (w mask : Z) :
  0 < mask < 2 ^ w ->
  exists r, BitScanForward w mask = Some r
            /\ 0 <= r < w
            /\ Z.testbit mask r = true
            /\ (forall j, 0 <= j < r -> Z.testbit mask j = false).
Proof.
  intros [Hpos Hlt].
  assert (Hw : 0 < w).
  { destruct (Z_lt_le_dec 0 w) as [|Hle]; [assumption|].
    destruct (Z.eq_dec w 0) as [->|]; [simpl in Hlt; lia|].
    rewrite Z.pow_neg_r in Hlt by lia. lia. }
  assert (Hlog : Z.log2 mask < w) by (apply Z.log2_lt_pow2; lia).
  pose proof (Z.log2_nonneg mask) as Hnn.
  destruct (bit_scan_from_finds mask (Z.to_nat w) 0 (Z.log2 mask))
    as (r & Hr & Hrange & Hset & Hlow).
  - rewrite Z2Nat.id by lia. lia.
  - apply Z.bit_log2. assumption.
  - exists r. unfold BitScanForward.
    split; [assumption|]. split; [lia|]. split; assumption.
Qed.

Lemma BitScanForward_zero (w : Z) : BitScanForward w 0 = None.
Proof.
  unfold BitScanForward. apply bit_scan_from_none.
  intros j _. apply Z.testbit_0_l.
Qed.

Lemma CPU_BITSCANFORWARD_zero (t : Target) : CPU_BITSCANFORWARD t 0 = None.
Proof. destruct t; apply BitScanForward_zero. Qed.

(** C6. For every non-zero affinity mask that fits the mask width, the
    selected CPU index is the position of the least-significant set bit
    (the bit at the index is set and every lower bit is clear), and it lies
    in [0, mask width); the mask [0b0110] yields index 1.  The index is
    computed from the mask the tool has read, and it is the one the job's
    limit is built from. *)
Theorem selected_cpu_is_lowest_set_bit (t : Target) :
  (forall mask,
      0 < mask < 2 ^ DWORD_PTR_bits t ->
      exists index,
        CPU_BITSCANFORWARD t mask = Some index
        /\ 0 <= index < DWORD_PTR_bits t
        /\ Z.testbit mask index = true
        /\ (forall j, 0 <= j < index -> Z.testbit mask j = false))
  /\ CPU_BITSCANFORWARD t 6 = Some 1
  /\ (forall m os argv job flags affinity ok,
         In (SetInformationJobObject job flags affinity ok)
            (fst (wmain m t os argv)) ->
         exists mask index,
           In (GetProcessAffinityMask (Some mask)) (fst (wmain m t os argv))
           /\ CPU_BITSCANFORWARD t mask = Some index
           /\ affinity = job_affinity t index).
Proof.
  split; [|split; [destruct t; reflexivity|]].
  - intros mask Hmask.
    destruct t; cbn [CPU_BITSCANFORWARD DWORD_PTR_bits] in *;
      apply BitScanForward_nonzero; assumption.
  - intros m os argv job flags affinity ok.
    destruct m; run_wmain; intros H; log_inv H;
      match goal with
      | E : CPU_BITSCANFORWARD t ?mask = Some ?index |- _ =>
          exists mask, index;
          split; [cbn [In]; tauto|split; [exact E|reflexivity]]
      end.
Qed.

Lemma selected_cpu_is_lowest_set_bit_witness :
  0 < 40 < 2 ^ DWORD_PTR_bits M_X64
  /\ exists index,
      CPU_BITSCANFORWARD M_X64 40 = Some index
      /\ 0 <= index < DWORD_PTR_bits M_X64
      /\ Z.testbit 40 index = true
      /\ (forall j, 0 <= j < index -> Z.testbit 40 j = false).
Proof.
  assert (H : 0 < 40 < 2 ^ DWORD_PTR_bits M_X64) by (simpl; lia).
  split; [exact H|].
  exact (proj1 (selected_cpu_is_lowest_set_bit M_X64) 40 H).
Defined.

(* ================================================================== *)
(** * The affinity limit: properties *)

(** Where the shift stays below the sign bit of [int] the limit is the
    single bit [2^index]. *)
Lemma job_affinity_below_sign_bit (t : Target) (index : Z) :
  0 <= index < 31 -> job_affinity t index = Some (2 ^ index).
Proof.
  intros H. unfold job_affinity, shl_int.
  replace ((0 <=? index) && (index <? 32)) with true
    by (symmetry; apply andb_true_iff; split; [apply Z.leb_le|apply Z.ltb_lt]; lia).
  cbn [option_map]. f_equal.
  assert (Hp : 0 < 2 ^ index < 2 ^ 31)
    by (split; [apply Z.pow_pos_nonneg|apply Z.pow_lt_mono_r]; lia).
  unfold to_int, wrap_signed, to_DWORD_PTR, wrap_unsigned.
  rewrite Z.mul_1_l.
  change (2 ^ (32 - 1)) with (2 ^ 31). change (2 ^ 32) with 4294967296.
  change (2 ^ 31) with 2147483648 in *.
  rewrite (Z.mod_small (2 ^ index) 4294967296) by lia.
  destruct (2 ^ index <? 2147483648) eqn:E; [|apply Z.ltb_ge in E; lia].
  apply Z.mod_small. destruct t; cbn [DWORD_PTR_bits]; lia.
Qed.

(** On the 32-bit target the sign bit itself still comes out right. *)
Lemma job_affinity_ix86 (index : Z) :
  0 <= index < 32 -> job_affinity M_IX86 index = Some (2 ^ index).
Proof.
  intros H. destruct (Z.eq_dec index 31) as [->|]; [reflexivity|].
  apply job_affinity_below_sign_bit; lia.
Qed.

(** A shift by the width of [int] or more has no defined value. *)
Lemma job_affinity_undefined (t : Target) (index : Z) :
  32 <= index -> job_affinity t index = None.
Proof.
  intros H. unfold job_affinity, shl_int.
  replace (index <? 32) with false by (symmetry; apply Z.ltb_ge; lia).
  rewrite andb_false_r. reflexivity.
Qed.

(** Hence the limit is the singleton of the selected CPU for every index
    below 31, and on the 32-bit target for every index. *)
Lemma single_bit_where_defined (t : Target) (index : Z) :
  index < 31 \/ t = M_IX86 -> single_bit_claim t index.
Proof.
  intros Hcase Hrange. exists (2 ^ index). split.
  - destruct Hcase as [Hlt| ->].
    + apply job_affinity_below_sign_bit. lia.
    + apply job_affinity_ix86. exact Hrange.
  - intros j Hj. rewrite Z.pow2_bits_eqb by lia. apply Z.eqb_sym.
Qed.

(** C3 (evaluation of the code where the claim fails).  On the 64-bit
    target, a process allowed on CPU 31 only selects index 31, and the
    affinity limit handed to the job object is [0xFFFFFFFF80000000]: the
    shift [1 << 31] is done at type [int] and sign-extended, so the limit
    has 33 bits set (CPUs 31..63) instead of the single bit 31. *)
Theorem affinity_limit_of_cpu_31_on_x64 :
  CPU_BITSCANFORWARD M_X64 (2 ^ 31) = Some 31
  /\ job_affinity M_X64 31 = Some 0xFFFFFFFF80000000
  /\ popcount 64 0xFFFFFFFF80000000 = 33%nat
  /\ In (SetInformationJobObject hJob JOB_OBJECT_LIMIT_AFFINITY
                                 (Some 0xFFFFFFFF80000000) true)
        (fst (wmain Direct M_X64 (friendly_os (2 ^ 31) [] 0) two_args))
  /\ In (SetInformationJobObject hJob JOB_OBJECT_LIMIT_AFFINITY
                                 (Some 0xFFFFFFFF80000000) true)
        (fst (wmain Search M_X64 (friendly_os (2 ^ 31) (L "C:\x.exe") 0)
                    two_args))
  /\ ~ single_bit_claim M_X64 31.
Proof.
  split; [reflexivity|]. split; [reflexivity|]. split; [reflexivity|].
  split; [vm_compute; tauto|]. split; [vm_compute; tauto|].
  intros Hclaim.
  destruct (Hclaim ltac:(cbn; lia)) as (affinity & Haff & Hbits).
  assert (Hval : affinity = 0xFFFFFFFF80000000)
    by (vm_compute in Haff; congruence).
  specialize (Hbits 63 ltac:(lia)). rewrite Hval in Hbits.
  vm_compute in Hbits. discriminate Hbits.
Qed.

(* ================================================================== *)
(** * The command line: properties *)

Module CmdLineFacts.
Import CmdLine.

Lemma spec_cmdline_cons (a : wstring) (rest : list wstring) :
  spec_cmdline (a :: rest)
  = quote a ++ match rest with
               | [] => []
               | _ => space ++ spec_cmdline rest
               end.
Proof.
  unfold spec_cmdline. destruct rest; cbn [map join].
  - symmetry; apply app_nil_r.
  - reflexivity.
Qed.

(** Loop invariant: with [pre] consumed and [rest] to go, the loop
    appends the space-joined quoted [rest]; fuel [length rest] is
    enough. *)
Lemma quote_loop_appends (fuel : nat) :
  forall (pre rest : list wstring) (oss : wstring),
    (List.length rest <= fuel)%nat ->
    quote_loop fuel (List.length pre) (List.length (pre ++ rest))
               (pre ++ rest) oss
    = oss ++ spec_cmdline rest.
Proof.
  induction fuel as [|fuel IH]; intros pre rest oss Hfuel.
  - destruct rest; [|simpl in Hfuel; lia].
    cbn. symmetry; apply app_nil_r.
  - cbn [quote_loop]. rewrite length_app.
    destruct rest as [|a rest].
    + replace (List.length pre <? List.length pre + List.length (@nil wstring))%nat
        with false by (symmetry; apply Nat.ltb_ge; simpl; lia).
      cbn. symmetry; apply app_nil_r.
    + replace (List.length pre <? List.length pre + List.length (a :: rest))%nat
        with true by (symmetry; apply Nat.ltb_lt; simpl; lia).
      rewrite nth_middle.
      assert (Hshift : pre ++ a :: rest = (pre ++ [a]) ++ rest)
        by (rewrite <- app_assoc; reflexivity).
      assert (Hlen : S (List.length pre) = List.length (pre ++ [a]))
        by (rewrite length_app; simpl; lia).
      assert (Hargc : (List.length pre + List.length (a :: rest))%nat
                      = List.length ((pre ++ [a]) ++ rest))
        by (rewrite !length_app; simpl; lia).
      assert (Hlast : (List.length pre
                       =? List.length pre + List.length (a :: rest) - 1)%nat
                      = match rest with [] => true | _ => false end).
      { destruct rest; [apply Nat.eqb_eq|apply Nat.eqb_neq]; simpl; lia. }
      rewrite Hlast, Hargc, Hshift, Hlen.
      cbn [List.length] in Hfuel.
      rewrite IH by lia.
      rewrite spec_cmdline_cons. unfold quote.
      destruct rest as [|b rest]; cbn [negb].
      * cbn. rewrite !app_nil_r. reflexivity.
      * rewrite <- !app_assoc. reflexivity.
Qed.

Lemma build_direct_spec (argv : list wstring) :
  build_direct argv = spec_cmdline (tl argv).
Proof.
  unfold build_direct. destruct argv as [|prog args]; [reflexivity|].
  pose proof (quote_loop_appends (List.length ([prog] ++ args))
                                 [prog] args []) as E.
  cbn [List.length app] in E |- *. rewrite E by lia. reflexivity.
Qed.

Lemma build_search_spec (exePath : wstring) (argv : list wstring) :
  build_search exePath argv = spec_cmdline (exePath :: skipn 2 argv).
Proof.
  unfold build_search. rewrite spec_cmdline_cons. fold (quote exePath).
  destruct argv as [|prog [|name args]];
    [cbn; rewrite app_nil_r; reflexivity ..|].
  cbn [skipn].
  assert (Hsp : (2 <? List.length (prog :: name :: args))%nat
                = match args with [] => false | _ => true end).
  { destruct args; [apply Nat.ltb_ge|apply Nat.ltb_lt]; simpl; lia. }
  rewrite Hsp.
  pose proof (fun oss => quote_loop_appends
                           (List.length ([prog; name] ++ args))
                           [prog; name] args oss) as E.
  cbn [List.length app] in E |- *. rewrite E by lia.
  destruct args as [|a args].
  - cbn. rewrite !app_nil_r. reflexivity.
  - rewrite <- app_assoc. reflexivity.
Qed.

(** A joined command line ends with the closing quote of its last
    argument. *)
Lemma spec_cmdline_closing_quote (args : list wstring) :
  args <> [] -> exists body, spec_cmdline args = body ++ dquote.
Proof.
  induction args as [|a rest IH]; [congruence|]. intros _.
  rewrite spec_cmdline_cons. destruct rest as [|b rest].
  - exists (dquote ++ a). unfold quote.
    rewrite app_nil_r, app_assoc. reflexivity.
  - destruct IH as [body Hbody]; [discriminate|].
    exists (quote a ++ space ++ body).
    rewrite Hbody, <- !app_assoc. reflexivity.
Qed.

Lemma spec_cmdline_last (args : list wstring) (d : wchar) :
  args <> [] -> last (spec_cmdline args) d = 34.
Proof.
  intros Hne. destruct (spec_cmdline_closing_quote args Hne) as [body ->].
  apply last_last.
Qed.

End CmdLineFacts.

(* ================================================================== *)
(** * Integer conversions on the way out *)



(* ================================================================== *)
(** * Monitors: soundness *)

(** What the monitor accepts: a [ResumeThread] is always preceded by the
    successful binding of the child to the job. *)
Lemma resumes_after_binding_sound (events : list Event) :
  forall bound,
    resumes_after_binding bound events = true ->
    forall before thread ret after,
      events = before ++ ResumeThread thread ret :: after ->
      bound = true
      \/ In (AssignProcessToJobObject hJob hProcess Succeeded) before.
Proof.
  induction events as [|e rest IH]; intros bound Hmon before thread ret after Heq.
  - destruct before; discriminate.
  - destruct before as [|e' before]; cbn [app] in Heq;
      injection Heq as He Hrest; subst.
    + cbn [resumes_after_binding] in Hmon.
      apply andb_true_iff in Hmon. left. tauto.
    + assert (Hnext : exists bound',
                 resumes_after_binding bound'
                   (before ++ ResumeThread thread ret :: after) = true
                 /\ (bound' = true ->
                     bound = true
                     \/ e' = AssignProcessToJobObject hJob hProcess Succeeded)).
      { destruct e';
          try (exists (bound || false); split; [exact Hmon|];
               rewrite orb_false_r; tauto).
        - destruct job, process, r;
            try (exists (bound || false); split; [exact Hmon|];
                 rewrite orb_false_r; tauto).
          exists (bound || true). split; [exact Hmon|]. tauto.
        - cbn [resumes_after_binding] in Hmon.
          apply andb_true_iff in Hmon. exists bound. tauto. }
      destruct Hnext as (bound' & Hmon' & Hbound').
      destruct (IH bound' Hmon' before thread ret after eq_refl) as [Hb|Hin].
      * destruct (Hbound' Hb) as [? | ->]; [left; assumption|].
        right. left. reflexivity.
      * right. right. assumption.
Qed.

(* ================================================================== *)
(** * Runs of [wmain]: shared facts *)

Lemma wmain_resumes_after_binding (m : Mode) (t : Target) (os : OS)
      (argv : list wstring) :
  resumes_after_binding false (fst (wmain m t os argv)) = true.
Proof. destruct m; run_wmain; reflexivity. Qed.

(** C10. Invoked with fewer than two command-line arguments, the tool
    writes the diagnostic "At least one argument required." to standard
    error and returns 1; nothing else happens, so no job object, no
    attribute list and no child process is created. *)
Theorem too_few_arguments (m : Mode) (t : Target) (os : OS)
        (argv : list wstring) :
  (List.length argv < 2)%nat ->
  wmain m t os argv = ([Stderr AtLeastOneArgumentRequired], 1)
  /\ diag_text AtLeastOneArgumentRequired
     = ("At least one argument required."%string, None).
Proof.
  intros Hargc. apply Nat.ltb_lt in Hargc. split; [|reflexivity].
  destruct m; cbv [wmain wmain_direct wmain_search];
    rewrite Hargc; reflexivity.
Qed.

Lemma too_few_arguments_witness :
  (List.length [L "rununiproc.exe"] < 2)%nat
  /\ wmain Search M_IX86 (friendly_os 1 [] 0) [L "rununiproc.exe"]
     = ([Stderr AtLeastOneArgumentRequired], 1)
  /\ diag_text AtLeastOneArgumentRequired
     = ("At least one argument required."%string, None).
Proof.
  assert (H : (List.length [L "rununiproc.exe"] < 2)%nat) by (simpl; lia).
  split; [exact H|].
  exact (too_few_arguments Search M_IX86 (friendly_os 1 [] 0)
                           [L "rununiproc.exe"] H).
Defined.

(** C1. In every run, in either mode, the child's initial thread is
    resumed only after the child process has been assigned to the job
    object; if the assignment or the resume fails, the child is terminated
    and the tool returns 1; so a child created suspended never runs outside
    the job. *)
Theorem child_resumed_only_inside_job (m : Mode) (t : Target) (os : OS)
        (argv : list wstring) :
  (forall before thread ret after,
      fst (wmain m t os argv) = before ++ ResumeThread thread ret :: after ->
      In (AssignProcessToJobObject hJob hProcess Succeeded) before)
  /\ (forall job process err,
         In (AssignProcessToJobObject job process (Failed err))
            (fst (wmain m t os argv)) ->
         In (TerminateProcess hProcess 1) (fst (wmain m t os argv))
         /\ snd (wmain m t os argv) = 1)
  /\ (forall thread,
         In (ResumeThread thread (to_DWORD (-1))) (fst (wmain m t os argv)) ->
         In (TerminateProcess hProcess 1) (fst (wmain m t os argv))
         /\ snd (wmain m t os argv) = 1)
  /\ never_runs_unconstrained (fst (wmain m t os argv)).
Proof.
  split; [|split; [|split]].
  - intros before thread ret after Hlog.
    destruct (resumes_after_binding_sound
                _ false (wmain_resumes_after_binding m t os argv)
                before thread ret after Hlog) as [Hb|Hin];
      [discriminate|assumption].
  - intros job process err.
    destruct m; run_wmain; intros H; log_inv H;
      (split; [cbn [In]; tauto|reflexivity]).
  - intros thread.
    destruct m; run_wmain; intros H; log_inv H;
      try (split; [cbn [In]; tauto|reflexivity]);
      match goal with
      | E : (?x =? ?y) = false, Hxy : ?x = ?y |- _ =>
          rewrite Hxy, Z.eqb_refl in E; discriminate E
      end.
  - unfold never_runs_unconstrained.
    destruct m; run_wmain; cbn [child_states child_step];
      change (Z.testbit creation_flags 2) with true; cbv iota;
      repeat match goal with
             | E : (_ =? _) = _ |- _ => rewrite E
             end;
      cbn [child_states child_step];
      cbn [In]; intuition discriminate.
Qed.

Lemma child_resumed_only_inside_job_witness :
  In (AssignProcessToJobObject hJob hProcess (Failed 5))
     (fst (wmain Direct M_X64 os_assign_fails two_args))
  /\ In (TerminateProcess hProcess 1)
        (fst (wmain Direct M_X64 os_assign_fails two_args))
  /\ snd (wmain Direct M_X64 os_assign_fails two_args) = 1.
Proof.
  assert (H : In (AssignProcessToJobObject hJob hProcess (Failed 5))
                 (fst (wmain Direct M_X64 os_assign_fails two_args)))
    by (vm_compute; tauto).
  split; [exact H|].
  exact (proj1 (proj2 (child_resumed_only_inside_job
                         Direct M_X64 os_assign_fails two_args))
               hJob hProcess 5 H).
Defined.



(** C4 (as stated, refuted).  With a zero affinity mask in direct mode the
    job object has already been created when CPU selection fails: the log
    holds a successful [CreateJobObject] before the mask is read. *)
Lemma zero_mask_job_already_created :
  ~ zero_mask_claim Direct M_X64 (friendly_os 0 [] 0) two_args.
Proof.
  unfold zero_mask_claim. intros Hclaim.
  assert (Hmask : In (GetProcessAffinityMask (Some 0))
                     (fst (wmain Direct M_X64 (friendly_os 0 [] 0) two_args)))
    by (vm_compute; tauto).
  destruct (Hclaim Hmask) as (_ & _ & Hnojob).
  apply (Hnojob (Some hJob)). vm_compute. tauto.
Qed.

(** C4 (amended).  If the affinity mask is read as zero, CPU selection
    fails: the tool writes "CPU affinity mask is zero?!" and returns 1.  The
    job object was created before the mask was read; it gets no limit, no
    process is created, and its handle is closed on return. *)
Theorem zero_mask_fails_after_job_creation (m : Mode) (t : Target) (os : OS)
        (argv : list wstring) :
  In (GetProcessAffinityMask (Some 0)) (fst (wmain m t os argv)) ->
  snd (wmain m t os argv) = 1
  /\ In (Stderr AffinityMaskZero) (fst (wmain m t os argv))
  /\ (exists before after,
         fst (wmain m t os argv)
         = before ++ [CreateJobObject (Some hJob);
                      GetProcessAffinityMask (Some 0);
                      Stderr AffinityMaskZero;
                      CloseHandle hJob] ++ after)
  /\ (forall job flags affinity ok,
         ~ In (SetInformationJobObject job flags affinity ok)
              (fst (wmain m t os argv)))
  /\ no_process_creation (fst (wmain m t os argv)).
Proof.
  unfold no_process_creation.
  destruct m; run_wmain; intros H; log_inv H;
    try match goal with
        | E : CPU_BITSCANFORWARD _ 0 = Some _ |- _ =>
            rewrite CPU_BITSCANFORWARD_zero in E; discriminate E
        end;
    (split; [reflexivity|]; split; [cbn [In]; tauto|]; split;
     [|split; intros; cbn [In]; intuition discriminate]).
  - exists [], []. reflexivity.
  - eexists [_; _], [_]. reflexivity.
Qed.

Lemma zero_mask_fails_after_job_creation_witness :
  In (GetProcessAffinityMask (Some 0))
     (fst (wmain Search M_IX86 (friendly_os 0 (L "C:\x.exe") 0) two_args))
  /\ snd (wmain Search M_IX86 (friendly_os 0 (L "C:\x.exe") 0) two_args) = 1.
Proof.
  assert (H : In (GetProcessAffinityMask (Some 0))
                 (fst (wmain Search M_IX86 (friendly_os 0 (L "C:\x.exe") 0)
                             two_args)))
    by (vm_compute; tauto).
  split; [exact H|].
  exact (proj1 (zero_mask_fails_after_job_creation
                  Search M_IX86 (friendly_os 0 (L "C:\x.exe") 0) two_args H)).
Defined.

(** C9. In search mode, if [SearchPath] reports a length at or beyond the
    capacity of the path buffer (32767), the tool writes "SearchPath
    failed: path too long.", returns 1, and never calls [CreateProcess]. *)
Theorem resolved_path_too_long (t : Target) (os : OS) (argv : list wstring) :
  forall name bufLen pathLen,
    In (SearchPath name bufLen pathLen) (fst (wmain Search t os argv)) ->
    exePathBufLen <= pathLen ->
    bufLen = exePathBufLen
    /\ snd (wmain Search t os argv) = 1
    /\ In (Stderr SearchPathTooLong) (fst (wmain Search t os argv))
    /\ no_process_creation (fst (wmain Search t os argv)).
Proof.
  intros name bufLen pathLen. unfold no_process_creation.
  run_wmain; intros H Hlen; log_inv H;
    try match goal with
        | E : (exePathBufLen <=? _) = false |- _ =>
            apply Z.leb_gt in E; lia
        end;
    try match goal with
        | E : (?x =? 0) = true |- _ =>
            apply Z.eqb_eq in E; rewrite E in Hlen;
            unfold exePathBufLen in Hlen; lia
        end;
    (split; [reflexivity|]; split; [reflexivity|]; split;
     [cbn [In]; tauto|intros; cbn [In]; intuition discriminate]).
Qed.

Lemma resolved_path_too_long_witness :
  In (SearchPath (L "x.exe") 32767 40000)
     (fst (wmain Search M_X64 os_path_too_long two_args))
  /\ exePathBufLen <= 40000
  /\ snd (wmain Search M_X64 os_path_too_long two_args) = 1.
Proof.
  assert (H : In (SearchPath (L "x.exe") 32767 40000)
                 (fst (wmain Search M_X64 os_path_too_long two_args)))
    by (vm_compute; tauto).
  assert (Hlen : exePathBufLen <= 40000) by (unfold exePathBufLen; lia).
  split; [exact H|]. split; [exact Hlen|].
  exact (proj1 (proj2 (resolved_path_too_long
                         M_X64 os_path_too_long two_args
                         (L "x.exe") 32767 40000 H Hlen))).
Defined.

(* ================================================================== *)
(** * Length of the command line *)

(** A command line is longer than any single argument it quotes. *)
Lemma argument_shorter_than_cmdline (args : list wstring) (a : wstring) :
  In a args ->
  (List.length a < List.length (CmdLine.spec_cmdline args))%nat.
Proof.
  induction args as [|b rest IH]; intros Hin; [contradiction|].
  rewrite CmdLineFacts.spec_cmdline_cons.
  unfold CmdLine.quote, dquote. rewrite !length_app. cbn [List.length].
  destruct Hin as [->|Hin]; [lia|].
  specialize (IH Hin). destruct rest as [|c rest]; [contradiction|].
  rewrite length_app. lia.
Qed.

Lemma long_args_too_long (m : Mode) (os : OS) :
  exePathBufLen < Z.of_nat (List.length (assembled_cmdline m os long_args)).
Proof.
  unfold exePathBufLen.
  destruct m; unfold assembled_cmdline.
  - rewrite CmdLineFacts.build_direct_spec.
    pose proof (argument_shorter_than_cmdline
                  (tl long_args) (repeat 97 (Z.to_nat 32768))
                  (or_intror (or_introl eq_refl))) as Hlt.
    rewrite repeat_length in Hlt. lia.
  - rewrite CmdLineFacts.build_search_spec.
    pose proof (argument_shorter_than_cmdline
                  (resolved_path os long_args :: skipn 2 long_args)
                  (repeat 97 (Z.to_nat 32768))
                  (or_intror (or_introl eq_refl))) as Hlt.
    rewrite repeat_length in Hlt. lia.
Qed.

(** The first variant of [wmain] has no "command line too long" exit. *)
Lemma direct_mode_never_reports_too_long (t : Target) (os : OS)
      (argv : list wstring) :
  ~ In (Stderr CommandLineTooLong) (fst (wmain Direct t os argv)).
Proof. run_wmain; cbn [In]; intuition discriminate. Qed.

(** When every preparation step succeeds, direct mode gets as far as the
    attribute list with the handle whitelist. *)
Lemma direct_mode_reaches_launch (t : Target) (os : OS) (argv : list wstring)
      (mask index : Z) :
  (2 <= List.length argv)%nat ->
  os_CreateJobObject os = true ->
  os_GetProcessAffinityMask os = Some mask ->
  CPU_BITSCANFORWARD t mask = Some index ->
  os_SetInformationJobObject os (job_affinity t index) = true ->
  sz_ok (os_InitializeProcThreadAttributeList_sizing os) = false ->
  sz_lastError (os_InitializeProcThreadAttributeList_sizing os)
  = ERROR_INSUFFICIENT_BUFFER ->
  os_new_char_array
    os (sz_size (os_InitializeProcThreadAttributeList_sizing os)) = true ->
  os_InitializeProcThreadAttributeList os = true ->
  os_UpdateProcThreadAttribute os = true ->
  In (UpdateProcThreadAttribute inheritableHandleWhitelist true)
     (fst (wmain Direct t os argv)).
Proof.
  intros Hargc Hjob Hmask Hscan Hset Hsz Herr Hnew Hinit Hupd.
  apply Nat.ltb_ge in Hargc.
  cbv [wmain wmain_direct]. rewrite Hargc.
  cbv [exec restrict_job build_attribute_list bail bind ret Return emit
       declare log locals negb andb].
  rewrite Hjob, Hmask, Hscan, Hset, Hsz, Herr, Z.eqb_refl, Hnew, Hinit, Hupd.
  run_wmain; cbn [In]; tauto.
Qed.

(** C5 (as stated, refuted).  In direct mode a command line of more than
    32767 characters is not rejected by the tool: the attribute list is
    ready, the command line is too long, and yet no "too long" diagnostic
    is written -- even on an operating system that refuses such a command
    line in [CreateProcess]. *)
Lemma direct_mode_has_no_length_check :
  ~ too_long_claim Direct M_X64 (strict_os 1 [] 0) long_args.
Proof.
  unfold too_long_claim. intros Hclaim.
  assert (Hreached : In (UpdateProcThreadAttribute inheritableHandleWhitelist
                                                   true)
                        (fst (wmain Direct M_X64 (strict_os 1 [] 0) long_args))).
  { apply (direct_mode_reaches_launch M_X64 (strict_os 1 [] 0) long_args 1 0);
      try reflexivity.
    unfold long_args. cbn [List.length]. lia. }
  destruct (Hclaim Hreached (long_args_too_long Direct (strict_os 1 [] 0)))
    as (_ & Hdiag & _).
  exact (direct_mode_never_reports_too_long _ _ _ Hdiag).
Qed.

(** C5 (amended).  In search mode, a command line longer than 32767
    characters makes the tool return 1 without calling [CreateProcess], and
    once the attribute list is ready the diagnostic "Command line is too
    long for CreateProcess" is written.  In direct mode there is no length
    check: once the attribute list is ready the command line is handed to
    [CreateProcess] whatever its length, and no such diagnostic exists. *)
Theorem command_line_length_check (t : Target) (os : OS)
        (argv : list wstring) :
  (exePathBufLen < Z.of_nat (List.length (assembled_cmdline Search os argv)) ->
   snd (wmain Search t os argv) = 1
   /\ no_process_creation (fst (wmain Search t os argv))
   /\ (In (UpdateProcThreadAttribute inheritableHandleWhitelist true)
          (fst (wmain Search t os argv)) ->
       In (Stderr CommandLineTooLong) (fst (wmain Search t os argv))))
  /\ (In (UpdateProcThreadAttribute inheritableHandleWhitelist true)
         (fst (wmain Direct t os argv)) ->
      In (CreateProcess (nth 1 argv []) (assembled_cmdline Direct os argv)
                        true creation_flags
                        (os_CreateProcess os (nth 1 argv [])
                                          (assembled_cmdline Direct os argv)))
         (fst (wmain Direct t os argv)))
  /\ ~ In (Stderr CommandLineTooLong) (fst (wmain Direct t os argv)).
Proof.
  unfold no_process_creation. split; [|split].
  - run_wmain; intros Hlong;
      try match goal with
          | E : (exePathBufLen <? _) = false |- _ =>
              apply Z.ltb_ge in E; lia
          end;
      (split; [reflexivity|]; split;
       [intros; cbn [In]; intuition discriminate|]);
      intros H; log_inv H; cbn [In]; tauto.
  - run_wmain; intros H; log_inv H;
      repeat match goal with
             | E : os_CreateProcess _ _ _ = _ |- _ => rewrite E
             end;
      cbn [In]; tauto.
  - apply direct_mode_never_reports_too_long.
Qed.

Lemma command_line_length_check_witness :
  exePathBufLen
  < Z.of_nat (List.length
                (assembled_cmdline Search (friendly_os 1 (L "C:\x.exe") 0)
                                   long_args))
  /\ snd (wmain Search M_X64 (friendly_os 1 (L "C:\x.exe") 0) long_args) = 1.
Proof.
  pose proof (long_args_too_long Search (friendly_os 1 (L "C:\x.exe") 0))
    as H.
  split; [exact H|].
  exact (proj1 (proj1 (command_line_length_check
                         M_X64 (friendly_os 1 (L "C:\x.exe") 0) long_args)
                      H)).
Defined.

(** C7. For every argument list the assembled command line is each
    argument wrapped verbatim in double quotes, the quoted arguments joined
    by single spaces; it ends with a closing quote, not a space.  In direct
    mode, [x.exe] with arguments ["a b"; "c"] gives ["x.exe" "a b" "c"], and
    that string is what [CreateProcess] receives. *)
Theorem command_line_quoting (argv : list wstring) :
  CmdLine.build_direct argv = CmdLine.spec_cmdline (tl argv)
  /\ (forall exePath,
         CmdLine.build_search exePath argv
         = CmdLine.spec_cmdline (exePath :: skipn 2 argv))
  /\ (tl argv <> [] -> last (CmdLine.build_direct argv) 32 = 34)
  /\ (forall exePath, last (CmdLine.build_search exePath argv) 32 = 34)
  /\ CmdLine.build_direct [L "rununiproc.exe"; L "x.exe"; L "a b"; L "c"]
     = dquote ++ L "x.exe" ++ dquote ++ space
       ++ dquote ++ L "a b" ++ dquote ++ space
       ++ dquote ++ L "c" ++ dquote
  /\ (forall t os application cmdLine inherit flags r,
         In (CreateProcess application cmdLine inherit flags r)
            (fst (wmain Direct t os argv)) ->
         application = nth 1 argv []
         /\ cmdLine = CmdLine.spec_cmdline (tl argv)).
Proof.
  split; [apply CmdLineFacts.build_direct_spec|].
  split; [intros; apply CmdLineFacts.build_search_spec|].
  split; [intros Hne; rewrite CmdLineFacts.build_direct_spec;
          apply CmdLineFacts.spec_cmdline_last; assumption|].
  split; [intros; rewrite CmdLineFacts.build_search_spec;
          apply CmdLineFacts.spec_cmdline_last; discriminate|].
  split; [reflexivity|].
  intros t os application cmdLine inherit flags r.
  rewrite <- CmdLineFacts.build_direct_spec.
  run_wmain; intros H; log_inv H; split; reflexivity.
Qed.

Lemma command_line_quoting_witness :
  tl [L "rununiproc.exe"; L "x.exe"; L "a b"] <> []
  /\ last (CmdLine.build_direct [L "rununiproc.exe"; L "x.exe"; L "a b"]) 32
     = 34.
Proof.
  assert (H : tl [L "rununiproc.exe"; L "x.exe"; L "a b"] <> [])
    by (simpl; discriminate).
  split; [exact H|].
  exact (proj1 (proj2 (proj2 (command_line_quoting
                                [L "rununiproc.exe"; L "x.exe"; L "a b"])))
               H).
Defined.

(** C8. In search mode, the command line starts with the resolved path in
    double quotes, in place of the first argument, followed by the
    arguments from the second onward, each quoted and space-separated;
    [CreateProcess] is called with the resolved path as the application and
    this command line, and only when the search returned a length strictly
    between 0 and the buffer capacity.  A name resolved to
    [C:\bin\tool.exe] gives a command line whose first token is
    ["C:\bin\tool.exe"]. *)
Theorem search_mode_command_line (t : Target) (os : OS)
        (argv : list wstring) :
  (forall exePath,
      CmdLine.build_search exePath argv
      = CmdLine.quote exePath
        ++ match skipn 2 argv with
           | [] => []
           | _ => space ++ CmdLine.spec_cmdline (skipn 2 argv)
           end)
  /\ (forall application cmdLine inherit flags r,
         In (CreateProcess application cmdLine inherit flags r)
            (fst (wmain Search t os argv)) ->
         application = resolved_path os argv
         /\ cmdLine = CmdLine.build_search (resolved_path os argv) argv
         /\ 0 <> sp_pathLen (os_SearchPath os (nth 1 argv []) exePathBufLen)
         /\ sp_pathLen (os_SearchPath os (nth 1 argv []) exePathBufLen)
            < exePathBufLen)
  /\ CmdLine.build_search (L "C:\bin\tool.exe")
                          [L "rununiproc.exe"; L "tool"; L "a b"]
     = dquote ++ L "C:\bin\tool.exe" ++ dquote ++ space
       ++ dquote ++ L "a b" ++ dquote.
Proof.
  split; [|split; [|reflexivity]].
  - intros exePath. rewrite CmdLineFacts.build_search_spec.
    apply CmdLineFacts.spec_cmdline_cons.
  - intros application cmdLine inherit flags r. unfold resolved_path.
    run_wmain; intros H; log_inv H.
    all: repeat match goal with
                | E : (_ =? _) = false |- _ => apply Z.eqb_neq in E
                | E : (_ <=? _) = false |- _ => apply Z.leb_gt in E
                end.
    all: repeat split; try reflexivity; try assumption; try congruence.
Qed.

Lemma search_mode_command_line_witness :
  In (CreateProcess (L "C:\bin\tool.exe")
                    (dquote ++ L "C:\bin\tool.exe" ++ dquote ++ space
                     ++ dquote ++ L "a b" ++ dquote)
                    true creation_flags Succeeded)
     (fst (wmain Search M_X64 (friendly_os 1 (L "C:\bin\tool.exe") 0)
                 [L "rununiproc.exe"; L "tool"; L "a b"]))
  /\ L "C:\bin\tool.exe"
     = resolved_path (friendly_os 1 (L "C:\bin\tool.exe") 0)
                     [L "rununiproc.exe"; L "tool"; L "a b"].
Proof.
  assert (H : In (CreateProcess (L "C:\bin\tool.exe")
                    (dquote ++ L "C:\bin\tool.exe" ++ dquote ++ space
                     ++ dquote ++ L "a b" ++ dquote)
                    true creation_flags Succeeded)
                 (fst (wmain Search M_X64
                             (friendly_os 1 (L "C:\bin\tool.exe") 0)
                             [L "rununiproc.exe"; L "tool"; L "a b"])))
    by (vm_compute; tauto).
  split; [exact H|].
  exact (proj1 (proj1 (proj2 (search_mode_command_line
                                M_X64 (friendly_os 1 (L "C:\bin\tool.exe") 0)
                                [L "rununiproc.exe"; L "tool"; L "a b"]))
                      _ _ _ _ _ H)).
Defined.

(* ================================================================== *)
(** * Concrete runs *)

(** A child that exits with 42 makes the tool exit with 42. *)
Example run_forwards_42 :
  process_exit_code (snd (wmain Direct M_X64 (friendly_os 1 [] 42) two_args))
  = 42
  /\ process_exit_code
       (snd (wmain Search M_IX86 (friendly_os 1 (L "C:\x.exe") 42) two_args))
     = 42.
Proof. split; reflexivity. Qed.

(** An exit code with the top bit set survives the passage through
    [int]. *)
Example run_forwards_high_code :
  snd (wmain Direct M_X64 (friendly_os 1 [] 0xC0000005) two_args)
  = -1073741819
  /\ process_exit_code
       (snd (wmain Direct M_X64 (friendly_os 1 [] 0xC0000005) two_args))
     = 0xC0000005.
Proof. split; reflexivity. Qed.

(** Search mode with a name that is not found: diagnostic, exit code 1,
    and only the path buffer was ever allocated. *)
Example run_not_found :
  wmain Search M_X64 os_not_found two_args
  = ([MakeUniqueExePathBuf 32767 true;
      SearchPath (L "x.exe") 32767 0;
      Stderr (SearchPathFailed 2);
      DeleteArray], 1).
Proof. reflexivity. Qed.

(** A failed resume: the child is terminated, the handles are released in
    reverse order of acquisition, the tool returns 1. *)
Example run_resume_fails :
  wmain Direct M_X64 os_resume_fails two_args
  = ([CreateJobObject (Some hJob);
      GetProcessAffinityMask (Some 1);
      SetInformationJobObject hJob JOB_OBJECT_LIMIT_AFFINITY (Some 1) true;
      InitializeProcThreadAttributeList true 1 false;
      NewCharArray 48 true;
      InitializeProcThreadAttributeList false 1 true;
      UpdateProcThreadAttribute inheritableHandleWhitelist true;
      CreateProcess (L "x.exe") (dquote ++ L "x.exe" ++ dquote) true
                    creation_flags Succeeded;
      AssignProcessToJobObject hJob hProcess Succeeded;
      ResumeThread hThread 0xFFFFFFFF;
      Stderr (ResumeFailed 5);
      TerminateProcess hProcess 1;
      CloseHandle hThread; CloseHandle hProcess;
      DeleteProcThreadAttributeList; DeleteArray;
      CloseHandle hJob], 1).
Proof. reflexivity. Qed.

(** Failures to observe the child after a successful launch give 0. *)
Example run_observation_fails :
  snd (wmain Direct M_X64 os_wait_fails two_args) = 0
  /\ snd (wmain Search M_X64 os_no_exit_code two_args) = 0
  /\ In (Stderr (WaitFailed 6)) (fst (wmain Direct M_X64 os_wait_fails two_args))
  /\ In (Stderr (GetExitCodeFailed 6))
        (fst (wmain Search M_X64 os_no_exit_code two_args)).
Proof. repeat split; vm_compute; tauto. Qed.

(* ================================================================== *)
(** * Monitors over a log: soundness *)

Lemma after_first_sound (p q : Event -> bool) (events : list Event) :
  after_first p q events = true ->
  forall before e after,
    events = before ++ e :: after ->
    p e = true ->
    forall e', In e' after -> q e' = true.
Proof.
  induction events as [|x rest IH]; intros Hmon before e after Heq Hp e' Hin.
  - destruct before; discriminate.
  - cbn [after_first] in Hmon.
    destruct before as [|b before]; cbn [app] in Heq;
      injection Heq as Hx Hrest; subst.
    + rewrite Hp in Hmon.
      apply (proj1 (forallb_forall q after) Hmon). assumption.
    + destruct (p b).
      * apply (proj1 (forallb_forall q _) Hmon).
        apply in_or_app. right. right. assumption.
      * apply (IH Hmon before e after eq_refl Hp). assumption.
Qed.

Lemma each_preceded_sound (p q : Event -> bool) (events : list Event) :
  forall seen,
    each_preceded p q seen events = true ->
    forall before e after,
      events = before ++ e :: after ->
      q e = true ->
      seen = true \/ exists e', In e' before /\ p e' = true.
Proof.
  induction events as [|x rest IH];
    intros seen Hmon before e after Heq Hq.
  - destruct before; discriminate.
  - cbn [each_preceded] in Hmon. apply andb_true_iff in Hmon.
    destruct Hmon as [Hhere Hrest].
    destruct before as [|b before]; cbn [app] in Heq;
      injection Heq as Hx Hr; subst.
    + rewrite Hq in Hhere. cbn in Hhere. left. assumption.
    + destruct (IH _ Hrest before e after eq_refl Hq) as [Hseen|Hex].
      * apply orb_true_iff in Hseen. destruct Hseen as [Hs|Hp].
        -- left. assumption.
        -- right. exists b. split; [left; reflexivity|assumption].
      * right. destruct Hex as (e' & Hin & Hp).
        exists e'. split; [right; assumption|assumption].
Qed.

(* ================================================================== *)
(** * Scoped ownership on every exit path *)


(** X2. The attribute list is deleted exactly once in every run in which
    its buffer was allocated, and never otherwise; this includes the runs
    in which [InitializeProcThreadAttributeList] failed, where the deleter
    still calls [DeleteProcThreadAttributeList] on the buffer. *)
Theorem attribute_list_deleted_once (m : Mode) (t : Target) (os : OS)
        (argv : list wstring) :
  count deletes_attribute_list (fst (wmain m t os argv))
  = Nat.b2n (existsb allocates_attribute_list (fst (wmain m t os argv)))
  /\ (In (InitializeProcThreadAttributeList false 1 false)
         (fst (wmain m t os argv)) ->
      In DeleteProcThreadAttributeList (fst (wmain m t os argv))
      /\ snd (wmain m t os argv) = 1).
Proof.
  split.
  - destruct m; run_wmain; reflexivity.
  - destruct m; run_wmain; intros H; log_inv H;
      (split; [cbn [In]; tauto|reflexivity]).
Qed.

Lemma attribute_list_deleted_once_witness :
  In (InitializeProcThreadAttributeList false 1 false)
     (fst (wmain Direct M_X64 os_init_fails two_args))
  /\ In DeleteProcThreadAttributeList
        (fst (wmain Direct M_X64 os_init_fails two_args))
  /\ snd (wmain Direct M_X64 os_init_fails two_args) = 1.
Proof.
  assert (H : In (InitializeProcThreadAttributeList false 1 false)
                 (fst (wmain Direct M_X64 os_init_fails two_args)))
    by (vm_compute; tauto).
  split; [exact H|].
  exact (proj2 (attribute_list_deleted_once Direct M_X64 os_init_fails
                                            two_args) H).
Defined.

(** X3. Releases come last: once the first handle is closed or buffer
    freed, nothing but further releases follows, so no handle is used
    after it has been closed. *)
Theorem nothing_used_after_release (m : Mode) (t : Target) (os : OS)
        (argv : list wstring) :
  forall before e after,
    fst (wmain m t os argv) = before ++ e :: after ->
    is_release e = true ->
    forall e', In e' after -> is_release e' = true.
Proof.
  apply after_first_sound.
  destruct m; run_wmain; reflexivity.
Qed.

Lemma nothing_used_after_release_witness :
  fst (wmain Direct M_X64 os_assign_fails two_args)
  = firstn 11 (fst (wmain Direct M_X64 os_assign_fails two_args))
    ++ CloseHandle hThread
    :: skipn 12 (fst (wmain Direct M_X64 os_assign_fails two_args))
  /\ is_release (CloseHandle hThread) = true
  /\ In (CloseHandle hJob)
        (skipn 12 (fst (wmain Direct M_X64 os_assign_fails two_args)))
  /\ is_release (CloseHandle hJob) = true.
Proof.
  assert (H1 : fst (wmain Direct M_X64 os_assign_fails two_args)
               = firstn 11 (fst (wmain Direct M_X64 os_assign_fails two_args))
                 ++ CloseHandle hThread
                 :: skipn 12 (fst (wmain Direct M_X64 os_assign_fails
                                         two_args)))
    by (vm_compute; reflexivity).
  assert (H2 : is_release (CloseHandle hThread) = true) by reflexivity.
  assert (H3 : In (CloseHandle hJob)
                  (skipn 12 (fst (wmain Direct M_X64 os_assign_fails
                                        two_args))))
    by (vm_compute; tauto).
  split; [exact H1|]. split; [exact H2|]. split; [exact H3|].
  exact (nothing_used_after_release Direct M_X64 os_assign_fails two_args
                                    _ _ _ H1 H2 _ H3).
Defined.

(** X4. Resources are released in the reverse order of their
    acquisition: the releases of any run are a tail of the sequence
    thread handle, process handle, attribute list, its buffer, job handle
    (and, in search mode, the path buffer last). *)
Theorem released_in_reverse_order (m : Mode) (t : Target) (os : OS)
        (argv : list wstring) :
  exists skipped,
    full_release m = skipped ++ filter is_release (fst (wmain m t os argv)).
Proof.
  destruct m; run_wmain; cbn [full_release app];
    first [ exists []; reflexivity
          | eexists [_]; reflexivity
          | eexists [_; _]; reflexivity
          | eexists [_; _; _]; reflexivity
          | eexists [_; _; _; _]; reflexivity
          | eexists [_; _; _; _; _]; reflexivity
          | eexists [_; _; _; _; _; _]; reflexivity ].
Qed.

(* ================================================================== *)
(** * The launch sequence *)

(** X5. Whenever the tool calls [CreateProcess] it does so with handle
    inheritance on and exactly the flags [CREATE_SUSPENDED |
    CREATE_UNICODE_ENVIRONMENT | EXTENDED_STARTUPINFO_PRESENT] (0x80404),
    after the job's affinity limit has been set and after the attribute
    list has been given the handle whitelist; and that whitelist is always
    the three standard-stream handles, in the order input, output,
    error. *)
Theorem process_created_suspended_and_filtered (m : Mode) (t : Target)
        (os : OS) (argv : list wstring) :
  (forall application cmdLine inherit flags r,
      In (CreateProcess application cmdLine inherit flags r)
         (fst (wmain m t os argv)) ->
      inherit = true
      /\ flags = 0x80404
      /\ In (UpdateProcThreadAttribute inheritableHandleWhitelist true)
            (fst (wmain m t os argv))
      /\ exists affinity,
          In (SetInformationJobObject hJob JOB_OBJECT_LIMIT_AFFINITY
                                      affinity true)
             (fst (wmain m t os argv)))
  /\ (forall handles ok,
         In (UpdateProcThreadAttribute handles ok) (fst (wmain m t os argv)) ->
         handles = [hStd STD_INPUT_HANDLE; hStd STD_OUTPUT_HANDLE;
                    hStd STD_ERROR_HANDLE]).
Proof.
  split.
  - intros application cmdLine inherit flags r.
    destruct m; run_wmain; intros H; log_inv H;
      (split; [reflexivity|]; split; [reflexivity|];
       split; [cbn [In]; tauto|]; eexists; cbn [In];
       repeat (first [left; reflexivity | right])).
  - intros handles ok.
    destruct m; run_wmain; intros H; log_inv H; reflexivity.
Qed.

Lemma process_created_suspended_and_filtered_witness :
  In (CreateProcess (L "x.exe") (dquote ++ L "x.exe" ++ dquote) true
                    0x80404 Succeeded)
     (fst (wmain Direct M_X64 (friendly_os 1 [] 0) two_args))
  /\ In (UpdateProcThreadAttribute inheritableHandleWhitelist true)
        (fst (wmain Direct M_X64 (friendly_os 1 [] 0) two_args)).
Proof.
  assert (H : In (CreateProcess (L "x.exe") (dquote ++ L "x.exe" ++ dquote)
                                true 0x80404 Succeeded)
                 (fst (wmain Direct M_X64 (friendly_os 1 [] 0) two_args)))
    by (vm_compute; tauto).
  split; [exact H|].
  exact (proj1 (proj2 (proj2 (proj1 (process_created_suspended_and_filtered
                                       Direct M_X64 (friendly_os 1 [] 0)
                                       two_args)
                                    _ _ _ _ _ H)))).
Defined.

(** X6. The sizing call of [InitializeProcThreadAttributeList] is allowed
    to fail with [ERROR_INSUFFICIENT_BUFFER]: the tool gives up at that
    step exactly when the call failed with some other error, and then it
    returns 1 without allocating anything; otherwise it goes on to allocate
    a buffer of the size the call reported. *)
Theorem sizing_call_tolerates_insufficient_buffer (m : Mode) (t : Target)
        (os : OS) (argv : list wstring) :
  forall ok,
    In (InitializeProcThreadAttributeList true 1 ok)
       (fst (wmain m t os argv)) ->
    let sizing := os_InitializeProcThreadAttributeList_sizing os in
    ok = sz_ok sizing
    /\ (ok = false /\ sz_lastError sizing <> ERROR_INSUFFICIENT_BUFFER ->
        In (Stderr AttrListSizingFailed) (fst (wmain m t os argv))
        /\ snd (wmain m t os argv) = 1
        /\ forall size nonnull,
            ~ In (NewCharArray size nonnull) (fst (wmain m t os argv)))
    /\ (ok = true \/ sz_lastError sizing = ERROR_INSUFFICIENT_BUFFER ->
        ~ In (Stderr AttrListSizingFailed) (fst (wmain m t os argv))
        /\ exists nonnull,
            In (NewCharArray (sz_size sizing) nonnull)
               (fst (wmain m t os argv))).
Proof.
  intros ok. cbv zeta.
  destruct m; run_wmain; intros H; log_inv H.
  all: repeat match goal with
              | E : (_ =? _) = true |- _ => apply Z.eqb_eq in E
              | E : (_ =? _) = false |- _ => apply Z.eqb_neq in E
              end.
  all: split; [reflexivity|]; split.
  all: try (intros [Hok Herr];
            first [ discriminate Hok
                  | contradiction
                  | split; [cbn [In]; tauto|]; split; [reflexivity|];
                    intros; cbn [In]; intuition discriminate ]).
  all: intros [Hok|Herr];
    first [ discriminate Hok
          | contradiction
          | (split; [cbn [In]; intuition discriminate|]);
            eexists; cbn [In]; repeat (first [left; reflexivity | right]) ].
Qed.

Lemma sizing_call_tolerates_insufficient_buffer_witness :
  In (InitializeProcThreadAttributeList true 1 false)
     (fst (wmain Search M_X64 (os_sizing_error 87) two_args))
  /\ In (Stderr AttrListSizingFailed)
        (fst (wmain Search M_X64 (os_sizing_error 87) two_args))
  /\ In (InitializeProcThreadAttributeList true 1 false)
        (fst (wmain Search M_X64 (os_sizing_error 122) two_args))
  /\ ~ In (Stderr AttrListSizingFailed)
          (fst (wmain Search M_X64 (os_sizing_error 122) two_args)).
Proof.
  assert (H : In (InitializeProcThreadAttributeList true 1 false)
                 (fst (wmain Search M_X64 (os_sizing_error 87) two_args)))
    by (vm_compute; tauto).
  assert (H' : In (InitializeProcThreadAttributeList true 1 false)
                  (fst (wmain Search M_X64 (os_sizing_error 122) two_args)))
    by (vm_compute; tauto).
  assert (Hbad : false = false
                 /\ sz_lastError (os_InitializeProcThreadAttributeList_sizing
                                    (os_sizing_error 87))
                    <> ERROR_INSUFFICIENT_BUFFER)
    by (split; [reflexivity|vm_compute; discriminate]).
  assert (Hgood : false = true
                  \/ sz_lastError (os_InitializeProcThreadAttributeList_sizing
                                     (os_sizing_error 122))
                     = ERROR_INSUFFICIENT_BUFFER)
    by (right; reflexivity).
  split; [exact H|]. split.
  - exact (proj1 (proj1 (proj2 (sizing_call_tolerates_insufficient_buffer
                                  Search M_X64 (os_sizing_error 87) two_args
                                  false H))
                        Hbad)).
  - split; [exact H'|].
    exact (proj1 (proj2 (proj2 (sizing_call_tolerates_insufficient_buffer
                                  Search M_X64 (os_sizing_error 122) two_args
                                  false H'))
                        Hgood)).
Defined.

(** X7. Search mode, executable not found: when [SearchPath] returns 0
    the tool prints the error code, returns 1, and has done nothing but
    allocate and free the path buffer; no job object, attribute list or
    process exists. *)
Theorem search_mode_not_found (t : Target) (os : OS) (argv : list wstring) :
  (2 <= List.length argv)%nat ->
  os_make_unique_exePathBuf os = true ->
  sp_pathLen (os_SearchPath os (nth 1 argv []) exePathBufLen) = 0 ->
  wmain Search t os argv
  = ([MakeUniqueExePathBuf exePathBufLen true;
      SearchPath (nth 1 argv []) exePathBufLen 0;
      Stderr (SearchPathFailed
                (sp_lastError (os_SearchPath os (nth 1 argv [])
                                             exePathBufLen)));
      DeleteArray], 1).
Proof.
  intros Hargc Hbuf Hlen. apply Nat.ltb_ge in Hargc.
  cbv [wmain wmain_search]. rewrite Hargc, Hbuf.
  cbv [exec bail bind ret Return emit declare log locals negb].
  rewrite Hlen. reflexivity.
Qed.

Lemma search_mode_not_found_witness :
  (2 <= List.length two_args)%nat
  /\ os_make_unique_exePathBuf os_not_found = true
  /\ sp_pathLen (os_SearchPath os_not_found (nth 1 two_args [])
                               exePathBufLen) = 0
  /\ snd (wmain Search M_X64 os_not_found two_args) = 1.
Proof.
  assert (H1 : (2 <= List.length two_args)%nat) by (simpl; lia).
  assert (H2 : os_make_unique_exePathBuf os_not_found = true) by reflexivity.
  assert (H3 : sp_pathLen (os_SearchPath os_not_found (nth 1 two_args [])
                                         exePathBufLen) = 0) by reflexivity.
  split; [exact H1|]. split; [exact H2|]. split; [exact H3|].
  exact (f_equal snd (search_mode_not_found M_X64 os_not_found two_args
                                            H1 H2 H3)).
Defined.

(** X8. Supervision happens in order: the child is assigned to the job
    only after it has been created suspended, it is waited for only after
    a successful resume, and its exit code is read only after the wait has
    reported its termination ([WAIT_OBJECT_0]). *)
Theorem supervision_in_order (m : Mode) (t : Target) (os : OS)
        (argv : list wstring) :
  forall before e after,
    fst (wmain m t os argv) = before ++ e :: after ->
    (is_assign e = true ->
     exists e', In e' before /\ created_suspended e' = true)
    /\ (is_wait e = true ->
        exists e', In e' before /\ resume_succeeded e' = true)
    /\ (reads_exit_code e = true ->
        exists e', In e' before /\ wait_signalled e' = true).
Proof.
  intros before e after Hlog.
  assert (Hmon : each_preceded created_suspended is_assign false
                               (fst (wmain m t os argv)) = true
                 /\ each_preceded resume_succeeded is_wait false
                                  (fst (wmain m t os argv)) = true
                 /\ each_preceded wait_signalled reads_exit_code false
                                  (fst (wmain m t os argv)) = true).
  { destruct m; run_wmain;
      cbn [each_preceded created_suspended is_assign resume_succeeded is_wait
           wait_signalled reads_exit_code negb orb andb];
      change (Z.testbit creation_flags 2) with true;
      repeat match goal with
             | E : (_ =? _) = _ |- _ => rewrite E
             end;
      repeat split; reflexivity. }
  destruct Hmon as (Ha & Hw & Hr).
  split; [|split]; intros He.
  - destruct (each_preceded_sound _ _ _ _ Ha before e after Hlog He)
      as [Hf|Hex]; [discriminate Hf|exact Hex].
  - destruct (each_preceded_sound _ _ _ _ Hw before e after Hlog He)
      as [Hf|Hex]; [discriminate Hf|exact Hex].
  - destruct (each_preceded_sound _ _ _ _ Hr before e after Hlog He)
      as [Hf|Hex]; [discriminate Hf|exact Hex].
Qed.

Lemma supervision_in_order_witness :
  fst (wmain Direct M_X64 (friendly_os 1 [] 0) two_args)
  = firstn 11 (fst (wmain Direct M_X64 (friendly_os 1 [] 0) two_args))
    ++ GetExitCodeProcess hProcess (GotExitCode 0)
    :: skipn 12 (fst (wmain Direct M_X64 (friendly_os 1 [] 0) two_args))
  /\ reads_exit_code (GetExitCodeProcess hProcess (GotExitCode 0)) = true
  /\ exists e',
      In e' (firstn 11 (fst (wmain Direct M_X64 (friendly_os 1 [] 0)
                                   two_args)))
      /\ wait_signalled e' = true.
Proof.
  assert (H1 : fst (wmain Direct M_X64 (friendly_os 1 [] 0) two_args)
               = firstn 11 (fst (wmain Direct M_X64 (friendly_os 1 [] 0)
                                       two_args))
                 ++ GetExitCodeProcess hProcess (GotExitCode 0)
                 :: skipn 12 (fst (wmain Direct M_X64 (friendly_os 1 [] 0)
                                         two_args)))
    by (vm_compute; reflexivity).
  assert (H2 : reads_exit_code (GetExitCodeProcess hProcess (GotExitCode 0))
               = true) by reflexivity.
  split; [exact H1|]. split; [exact H2|].
  exact (proj2 (proj2 (supervision_in_order Direct M_X64 (friendly_os 1 [] 0)
                                            two_args _ _ _ H1))
               H2).
Defined.

(** X9. The tool terminates the child only on the two failure paths: a
    [TerminateProcess] call always targets the child with exit code 1,
    follows a failed assignment to the job or a failed resume, and makes the
    tool return 1; the child is then never waited for. *)
Theorem terminate_only_after_failed_launch (m : Mode) (t : Target) (os : OS)
        (argv : list wstring) :
  forall process code,
    In (TerminateProcess process code) (fst (wmain m t os argv)) ->
    process = hProcess
    /\ code = 1
    /\ snd (wmain m t os argv) = 1
    /\ ((exists err, In (Stderr (AssignFailed err)) (fst (wmain m t os argv)))
        \/ (exists err, In (Stderr (ResumeFailed err))
                           (fst (wmain m t os argv))))
    /\ (forall p ret,
           ~ In (WaitForSingleObject p ret) (fst (wmain m t os argv))).
Proof.
  intros process code.
  destruct m; run_wmain; intros H; log_inv H;
    (split; [reflexivity|]; split; [reflexivity|]; split; [reflexivity|];
     split; [|intros; cbn [In]; intuition discriminate]);
    first [ left; eexists; cbn [In];
            solve [repeat (first [left; reflexivity | right])]
          | right; eexists; cbn [In];
            solve [repeat (first [left; reflexivity | right])] ].
Qed.

Lemma terminate_only_after_failed_launch_witness :
  In (TerminateProcess hProcess 1)
     (fst (wmain Search M_X64 os_resume_fails two_args))
  /\ snd (wmain Search M_X64 os_resume_fails two_args) = 1.
Proof.
  assert (H : In (TerminateProcess hProcess 1)
                 (fst (wmain Search M_X64 os_resume_fails two_args)))
    by (vm_compute; tauto).
  split; [exact H|].
  exact (proj1 (proj2 (proj2 (terminate_only_after_failed_launch
                                Search M_X64 os_resume_fails two_args
                                hProcess 1 H)))).
Defined.

(* ================================================================== *)
(** * Diagnostics *)


(** X11. The tool stops at the first failure: after a diagnostic has been
    written it makes no further call except terminating the child and
    releasing what it holds. *)
Theorem nothing_attempted_after_diagnostic (m : Mode) (t : Target) (os : OS)
        (argv : list wstring) :
  forall before d after,
    fst (wmain m t os argv) = before ++ Stderr d :: after ->
    forall e, In e after -> is_terminate e = true \/ is_release e = true.
Proof.
  intros before d after Hlog e Hin.
  apply orb_true_iff.
  apply (after_first_sound is_diagnostic
                           (fun e => is_terminate e || is_release e)
                           (fst (wmain m t os argv)))
    with (before := before) (e := Stderr d) (after := after);
    [|assumption|reflexivity|assumption].
  destruct m; run_wmain; reflexivity.
Qed.

Lemma nothing_attempted_after_diagnostic_witness :
  fst (wmain Direct M_X64 os_assign_fails two_args)
  = firstn 9 (fst (wmain Direct M_X64 os_assign_fails two_args))
    ++ Stderr (AssignFailed 5)
    :: skipn 10 (fst (wmain Direct M_X64 os_assign_fails two_args))
  /\ In (TerminateProcess hProcess 1)
        (skipn 10 (fst (wmain Direct M_X64 os_assign_fails two_args)))
  /\ (is_terminate (TerminateProcess hProcess 1) = true
      \/ is_release (TerminateProcess hProcess 1) = true).
Proof.
  assert (H1 : fst (wmain Direct M_X64 os_assign_fails two_args)
               = firstn 9 (fst (wmain Direct M_X64 os_assign_fails two_args))
                 ++ Stderr (AssignFailed 5)
                 :: skipn 10 (fst (wmain Direct M_X64 os_assign_fails
                                         two_args)))
    by (vm_compute; reflexivity).
  assert (H2 : In (TerminateProcess hProcess 1)
                  (skipn 10 (fst (wmain Direct M_X64 os_assign_fails
                                        two_args))))
    by (vm_compute; tauto).
  split; [exact H1|]. split; [exact H2|].
  exact (nothing_attempted_after_diagnostic Direct M_X64 os_assign_fails
                                            two_args _ _ _ H1 _ H2).
Defined.

(* ================================================================== *)
(** * Further properties of the command line *)

(** X12. Length of the command line: every argument costs its own length
    plus two quotes, and every argument but the last one a space.  In
    search mode the resolved path counts in place of [argv[1]]. *)
Theorem command_line_length (argv : list wstring) :
  (tl argv <> [] ->
   (List.length (CmdLine.build_direct argv) + 1
    = total_length (tl argv) + 3 * List.length (tl argv))%nat)
  /\ (forall exePath,
         (List.length (CmdLine.build_search exePath argv) + 1
          = List.length exePath + total_length (skipn 2 argv)
            + 3 * (1 + List.length (skipn 2 argv)))%nat).
Proof.
  assert (Hspec : forall args,
             args <> [] ->
             (List.length (CmdLine.spec_cmdline args) + 1
              = total_length args + 3 * List.length args)%nat).
  { induction args as [|a rest IH]; [congruence|]. intros _.
    rewrite CmdLineFacts.spec_cmdline_cons.
    unfold CmdLine.quote, dquote, space, total_length in *.
    rewrite !length_app. cbn [List.length map list_sum].
    destruct rest as [|b rest].
    - cbn. lia.
    - rewrite length_app. cbn [List.length].
      specialize (IH ltac:(discriminate)).
      cbn [List.length map] in IH |- *.
      unfold list_sum in IH |- *. cbn [fold_right] in IH |- *. lia. }
  split.
  - intros Hne. rewrite CmdLineFacts.build_direct_spec. apply Hspec, Hne.
  - intros exePath. rewrite CmdLineFacts.build_search_spec.
    rewrite Hspec by discriminate.
    unfold total_length. cbn [List.length map].
    unfold list_sum. cbn [fold_right]. lia.
Qed.

Lemma command_line_length_witness :
  tl [L "rununiproc.exe"; L "x.exe"; L "a b"] <> []
  /\ (List.length (CmdLine.build_direct
                     [L "rununiproc.exe"; L "x.exe"; L "a b"]) + 1
      = total_length (tl [L "rununiproc.exe"; L "x.exe"; L "a b"])
        + 3 * List.length (tl [L "rununiproc.exe"; L "x.exe"; L "a b"]))%nat.
Proof.
  assert (H : tl [L "rununiproc.exe"; L "x.exe"; L "a b"] <> [])
    by (simpl; discriminate).
  split; [exact H|].
  exact (proj1 (command_line_length [L "rununiproc.exe"; L "x.exe"; L "a b"])
               H).
Defined.

(** Two strings that agree up to and including their first double quote
    agree before and after it. *)
Lemma split_at_first_quote (a a' r r' : wstring) :
  quote_free a -> quote_free a' ->
  a ++ 34 :: r = a' ++ 34 :: r' -> a = a' /\ r = r'.
Proof.
  unfold quote_free. revert a'.
  induction a as [|x a IH]; intros [|x' a'] Ha Ha' Heq; cbn [app] in Heq.
  - injection Heq as ->. split; reflexivity.
  - injection Heq as <- _. exfalso. apply Ha'. left. reflexivity.
  - injection Heq as -> _. exfalso. apply Ha. left. reflexivity.
  - injection Heq as -> Heq.
    assert (Hq : ~ In 34 a) by (intros Hin; apply Ha; right; exact Hin).
    assert (Hq' : ~ In 34 a') by (intros Hin; apply Ha'; right; exact Hin).
    destruct (IH a' Hq Hq' Heq) as [-> ->]. split; reflexivity.
Qed.

Lemma spec_cmdline_injective (args : list wstring) :
  forall args',
    Forall quote_free args -> Forall quote_free args' ->
    CmdLine.spec_cmdline args = CmdLine.spec_cmdline args' ->
    args = args'.
Proof.
  induction args as [|a rest IH]; intros [|a' rest'] Hq Hq' Heq;
    try reflexivity;
    try (rewrite CmdLineFacts.spec_cmdline_cons in Heq;
         cbn in Heq; discriminate Heq).
  rewrite !CmdLineFacts.spec_cmdline_cons in Heq.
  unfold CmdLine.quote, dquote in Heq.
  rewrite <- !app_assoc in Heq. cbn [app] in Heq.
  injection Heq as Heq.
  inversion Hq as [|? ? Ha Hrest]; inversion Hq' as [|? ? Ha' Hrest']; subst.
  destruct (split_at_first_quote _ _ _ _ Ha Ha' Heq) as [-> Htail].
  f_equal.
  destruct rest as [|b rest], rest' as [|b' rest'];
    try reflexivity; try discriminate Htail.
  unfold space in Htail. cbn [app] in Htail. injection Htail as Htail.
  apply IH; assumption.
Qed.

(** X13. As long as no argument contains a double quote, the command
    line determines the arguments: two argument lists with the same
    command line are equal.  With a double quote inside an argument this
    fails, since quotes are not escaped: the single argument [a" "b] and
    the two arguments [a], [b] give the same command line. *)
Theorem command_line_determines_quote_free_arguments :
  (forall argv argv',
      Forall quote_free (tl argv) -> Forall quote_free (tl argv') ->
      CmdLine.build_direct argv = CmdLine.build_direct argv' ->
      tl argv = tl argv')
  /\ (forall exePath argv argv',
         quote_free exePath ->
         Forall quote_free (skipn 2 argv) ->
         Forall quote_free (skipn 2 argv') ->
         CmdLine.build_search exePath argv = CmdLine.build_search exePath argv' ->
         skipn 2 argv = skipn 2 argv')
  /\ CmdLine.build_direct [L "rununiproc.exe"; L "a" ++ dquote ++ space
                                                 ++ dquote ++ L "b"]
     = CmdLine.build_direct [L "rununiproc.exe"; L "a"; L "b"].
Proof.
  split; [|split; [|reflexivity]].
  - intros argv argv' Hq Hq' Heq.
    rewrite !CmdLineFacts.build_direct_spec in Heq.
    apply spec_cmdline_injective; assumption.
  - intros exePath argv argv' Hp Hq Hq' Heq.
    rewrite !CmdLineFacts.build_search_spec in Heq.
    apply spec_cmdline_injective in Heq.
    + injection Heq as Heq. exact Heq.
    + constructor; assumption.
    + constructor; assumption.
Qed.

Lemma command_line_determines_quote_free_arguments_witness :
  Forall quote_free (tl [L "rununiproc.exe"; L "x.exe"])
  /\ CmdLine.build_direct [L "rununiproc.exe"; L "x.exe"]
     = CmdLine.build_direct [L "other.exe"; L "x.exe"]
  /\ tl [L "rununiproc.exe"; L "x.exe"] = tl [L "other.exe"; L "x.exe"].
Proof.
  assert (Hq : forall p, Forall quote_free (tl [p; L "x.exe"])).
  { intros p. constructor; [|constructor].
    unfold quote_free. cbn. intros H.
    repeat (destruct H as [H|H]; [discriminate H|]). exact H. }
  assert (Heq : CmdLine.build_direct [L "rununiproc.exe"; L "x.exe"]
                = CmdLine.build_direct [L "other.exe"; L "x.exe"])
    by reflexivity.
  split; [exact (Hq _)|]. split; [exact Heq|].
  exact (proj1 command_line_determines_quote_free_arguments
               _ _ (Hq _) (Hq _) Heq).
Defined.

(** X14. The tool never looks at [argv[0]]: two invocations that differ
    only in the program name behave identically. *)
Theorem program_name_ignored (m : Mode) (t : Target) (os : OS)
        (prog prog' : wstring) (args : list wstring) :
  wmain m t os (prog :: args) = wmain m t os (prog' :: args).
Proof.
  destruct m; cbv [wmain wmain_direct wmain_search].
  - rewrite !CmdLineFacts.build_direct_spec. reflexivity.
  - rewrite !CmdLineFacts.build_search_spec. reflexivity.
Qed.

(** X15. Boundary of the length check in search mode: a command line of
    up to and including 32767 characters passes; once the attribute list
    is ready, [CreateProcess] is called with the resolved path and that
    command line. *)
Theorem search_mode_accepts_up_to_the_limit (t : Target) (os : OS)
        (argv : list wstring) :
  In (UpdateProcThreadAttribute inheritableHandleWhitelist true)
     (fst (wmain Search t os argv)) ->
  Z.of_nat (List.length (assembled_cmdline Search os argv)) <= 32767 ->
  In (CreateProcess (resolved_path os argv) (assembled_cmdline Search os argv)
                    true creation_flags
                    (os_CreateProcess os (resolved_path os argv)
                                      (assembled_cmdline Search os argv)))
     (fst (wmain Search t os argv))
  /\ ~ In (Stderr CommandLineTooLong) (fst (wmain Search t os argv)).
Proof.
  run_wmain; intros H Hlen; log_inv H;
    try match goal with
        | E : (exePathBufLen <? _) = true |- _ =>
            apply Z.ltb_lt in E;
            pose proof (eq_refl : exePathBufLen = 32767); lia
        end;
    (split; [cbn [In]; repeat (first [left; reflexivity | right])
            |cbn [In]; intuition discriminate]).
Qed.

Lemma search_mode_accepts_up_to_the_limit_witness :
  In (UpdateProcThreadAttribute inheritableHandleWhitelist true)
     (fst (wmain Search M_X64 (friendly_os 1 (L "C:\x.exe") 0) two_args))
  /\ Z.of_nat (List.length
                 (assembled_cmdline Search (friendly_os 1 (L "C:\x.exe") 0)
                                    two_args)) <= 32767
  /\ ~ In (Stderr CommandLineTooLong)
          (fst (wmain Search M_X64 (friendly_os 1 (L "C:\x.exe") 0)
                      two_args)).
Proof.
  assert (H : In (UpdateProcThreadAttribute inheritableHandleWhitelist true)
                 (fst (wmain Search M_X64 (friendly_os 1 (L "C:\x.exe") 0)
                             two_args)))
    by (vm_compute; tauto).
  assert (Hlen : Z.of_nat (List.length
                             (assembled_cmdline
                                Search (friendly_os 1 (L "C:\x.exe") 0)
                                two_args)) <= 32767)
    by (vm_compute; discriminate).
  split; [exact H|]. split; [exact Hlen|].
  exact (proj2 (search_mode_accepts_up_to_the_limit
                  M_X64 (friendly_os 1 (L "C:\x.exe") 0) two_args H Hlen)).
Defined.

(* ================================================================== *)
(** * The selected CPU and the process's own mask *)

Lemma bit_scan_from_sound (mask : Z) (fuel : nat) :
  forall i r,
    bit_scan_from fuel i mask = Some r ->
    Z.testbit mask r = true /\ i <= r < i + Z.of_nat fuel.
Proof.
  induction fuel as [|fuel IH]; intros i r Hscan; [discriminate|].
  cbn [bit_scan_from] in Hscan. destruct (Z.testbit mask i) eqn:Hi.
  - injection Hscan as <-. split; [assumption|lia].
  - destruct (IH _ _ Hscan) as [Hbit Hrange]. split; [assumption|lia].
Qed.

(** X16. Whatever the mask, a selected index is inside the mask width and
    names a CPU the mask allows; and where the shift of line 81 stays
    below the sign bit of [int] (index below 31, or any index on the
    32-bit target) the affinity limit is a non-empty subset of the
    process's own mask. *)
Theorem selected_cpu_is_allowed (t : Target) (mask index : Z) :
  CPU_BITSCANFORWARD t mask = Some index ->
  Z.testbit mask index = true
  /\ 0 <= index < DWORD_PTR_bits t
  /\ (t = M_IX86 \/ index < 31 ->
      exists affinity,
        job_affinity t index = Some affinity
        /\ affinity <> 0
        /\ Z.land affinity mask = affinity).
Proof.
  intros Hscan.
  assert (Hs : Z.testbit mask index = true /\ 0 <= index < DWORD_PTR_bits t).
  { destruct t; cbn [CPU_BITSCANFORWARD DWORD_PTR_bits] in Hscan |- *;
      unfold BitScanForward in Hscan;
      apply bit_scan_from_sound in Hscan;
      destruct Hscan as [Hbit Hrange]; rewrite Z2Nat.id in Hrange by lia;
      (split; [exact Hbit|lia]). }
  destruct Hs as [Hbit Hrange].
  split; [assumption|]. split; [assumption|].
  intros Hcase. exists (2 ^ index). split; [|split].
  - destruct Hcase as [->|Hlt].
    + apply job_affinity_ix86. exact Hrange.
    + apply job_affinity_below_sign_bit. lia.
  - apply Z.pow_nonzero; lia.
  - apply Z.bits_inj'. intros n Hn.
    rewrite Z.land_spec, Z.pow2_bits_eqb by lia.
    destruct (Z.eqb_spec index n) as [->|]; [rewrite Hbit|]; reflexivity.
Qed.

Lemma selected_cpu_is_allowed_witness :
  CPU_BITSCANFORWARD M_X64 40 = Some 3
  /\ Z.testbit 40 3 = true
  /\ 0 <= 3 < DWORD_PTR_bits M_X64.
Proof.
  assert (H : CPU_BITSCANFORWARD M_X64 40 = Some 3) by reflexivity.
  split; [exact H|].
  split; [exact (proj1 (selected_cpu_is_allowed M_X64 40 3 H))
         |exact (proj1 (proj2 (selected_cpu_is_allowed M_X64 40 3 H)))].
Defined.

(** X17. Where the shift of line 81 stays below the sign bit of [int]
    (index below 31, or any index of the mask width on the 32-bit target),
    the affinity limit has exactly one bit set, the bit of the selected
    index. *)
Theorem affinity_limit_single_bit (t : Target) (index : Z) :
  0 <= index < DWORD_PTR_bits t ->
  t = M_IX86 \/ index < 31 ->
  job_affinity t index = Some (2 ^ index)
  /\ (forall j, 0 <= j -> Z.testbit (2 ^ index) j = (j =? index))
  /\ popcount (Z.to_nat (DWORD_PTR_bits t)) (2 ^ index) = 1%nat.
Proof.
  intros Hrange Hcase.
  assert (Hbits : forall j, 0 <= j -> Z.testbit (2 ^ index) j = (j =? index))
    by (intros j Hj; rewrite Z.pow2_bits_eqb by lia; apply Z.eqb_sym).
  split; [|split; [exact Hbits|]].
  - destruct Hcase as [->|Hlt].
    + apply job_affinity_ix86. exact Hrange.
    + apply job_affinity_below_sign_bit. lia.
  - assert (Hcount : forall n : nat,
               popcount n (2 ^ index)
               = if index <? Z.of_nat n then 1%nat else 0%nat).
    { induction n as [|n IH]; cbn [popcount].
      - destruct (Z.ltb_spec index (Z.of_nat 0)); [lia|reflexivity].
      - rewrite IH, Hbits by lia.
        destruct (Z.eqb_spec (Z.of_nat n) index),
                 (Z.ltb_spec index (Z.of_nat n)),
                 (Z.ltb_spec index (Z.of_nat (S n))); try lia; reflexivity. }
    rewrite Hcount, Z2Nat.id by (destruct t; cbn; lia).
    destruct (Z.ltb_spec index (DWORD_PTR_bits t)); [reflexivity|lia].
Qed.

Lemma affinity_limit_single_bit_witness :
  0 <= 3 < DWORD_PTR_bits M_X64
  /\ (M_X64 = M_IX86 \/ 3 < 31)
  /\ job_affinity M_X64 3 = Some (2 ^ 3).
Proof.
  assert (H1 : 0 <= 3 < DWORD_PTR_bits M_X64) by (simpl; lia).
  assert (H2 : M_X64 = M_IX86 \/ 3 < 31) by (right; lia).
  split; [exact H1|]. split; [exact H2|].
  exact (proj1 (affinity_limit_single_bit M_X64 3 H1 H2)).
Defined.
